(** * The [Currency] class of CodaClient.py

    A shallow embedding of [CurrencyFormat], [CurrencyUnderflow] and
    [Currency] (CodaClient.py, lines 12-149), with the Python built-ins the
    class relies on ([str.split], [int], [str], [len], slicing, string
    repetition, [isinstance], default object equality, [random.randint]).

    Modelling conventions.
    - A Python [int] is a [Z] (arbitrary precision, no wrap-around).
    - A Python [str] is a [string]; one [ascii] stands for one character, so
      the model covers ASCII text.  The interpreter's optional limit on the
      number of digits converted between [int] and [str] is not modelled.
    - A Python [float] is represented by the text [str] gives for it, which
      is the only thing the class ever asks of a float.
    - Exceptions are values of [exn]; a computation that may raise returns a
      [result].
    - Object identity is explicit: every [Currency] object carries the
      identity it was allocated with, and constructing an object draws the
      next identity from a counter that is threaded through the calls.
    - [random.randint] is a request-and-continuation node of [rand]. *)

From Stdlib Require Import ZArith List String Ascii Bool Lia.
Import ListNotations.

Local Open Scope string_scope.
Local Open Scope Z_scope.

(** ** Exceptions and results *)

Inductive exn : Type :=
| Exception (msg : string)      (* raise Exception('...') *)
| CurrencyUnderflow             (* raise CurrencyUnderflow() *)
| ValueError (literal : string) (* int(literal): invalid literal for int() with base 10 *)
| TypeError.                    (* raised by the interpreter: an operator applied to
                                   None, or '%' given a tuple of the wrong length *)

Inductive result (A : Type) : Type :=
| Ok (a : A)
| Raise (e : exn).

Arguments Ok {A} a.
Arguments Raise {A} e.

Definition bind {A B : Type} (m : result A) (f : A -> result B) : result B :=
  match m with
  | Ok a => f a
  | Raise e => Raise e
  end.

Notation "x <- m ;; k" := (bind m (fun x => k))
  (at level 61, m at next level, right associativity).

(** ** Python strings *)

Module PyStr.

Definition len (s : string) : nat := String.length s.

(** [c * k] for a one-character string [c]. *)
Fixpoint repeat (c : ascii) (k : nat) : string :=
  match k with
  | O => ""
  | S k' => String c (repeat c k')
  end.

Fixpoint take (k : nat) (s : string) : string :=
  match k, s with
  | S k', String c s' => String c (take k' s')
  | _, _ => ""
  end.

Fixpoint drop (k : nat) (s : string) : string :=
  match k, s with
  | S k', String _ s' => drop k' s'
  | _, _ => s
  end.

(** [s[:-k]] and [s[-k:]] for a positive literal [k]. *)
Definition slice_until_last (k : nat) (s : string) : string :=
  take (len s - k) s.

Definition slice_last (k : nat) (s : string) : string :=
  drop (len s - k) s.

(** [c in s] *)
Fixpoint contains (c : ascii) (s : string) : bool :=
  match s with
  | "" => false
  | String d s' => Ascii.eqb d c || contains c s'
  end.

(** [s.split(sep)] for a one-character separator: every occurrence
    splits, and the result always has at least one segment. *)
Fixpoint split (sep : ascii) (s : string) : list string :=
  match s with
  | "" => [""]
  | String c s' =>
      if Ascii.eqb c sep then "" :: split sep s'
      else match split sep s' with
           | seg :: rest => String c seg :: rest
           | [] => [String c ""]
           end
  end.

(** Number of occurrences of [c] in [s]: [s.count(c)]. *)
Fixpoint count (c : ascii) (s : string) : nat :=
  match s with
  | "" => O
  | String d s' => (if Ascii.eqb d c then 1 else 0) + count c s'
  end.

End PyStr.

(** ** Conversions between [int] and [str] *)

Module PyInt.

Definition is_digit (c : ascii) : bool :=
  let n := nat_of_ascii c in (48 <=? n)%nat && (n <=? 57)%nat.

(** The characters [int] skips at both ends of an ASCII string. *)
Definition is_space (c : ascii) : bool :=
  let n := nat_of_ascii c in
  ((9 <=? n)%nat && (n <=? 13)%nat) || (n =? 32)%nat.

Definition digit_val (c : ascii) : Z := Z.of_nat (nat_of_ascii c) - 48.

Definition digit_char (d : Z) : ascii := ascii_of_nat (Z.to_nat (d + 48)).

Fixpoint all_digits (s : string) : bool :=
  match s with
  | "" => true
  | String c s' => is_digit c && all_digits s'
  end.

(** The integer a string of digits denotes, read after the digits
    already accumulated in [acc]. *)
Fixpoint digits_value (acc : Z) (s : string) : Z :=
  match s with
  | "" => acc
  | String c s' => digits_value (acc * 10 + digit_val c) s'
  end.

Fixpoint lstrip (s : string) : string :=
  match s with
  | "" => ""
  | String c s' => if is_space c then lstrip s' else s
  end.

Fixpoint rstrip (s : string) : string :=
  match s with
  | "" => ""
  | String c s' =>
      match rstrip s' with
      | "" => if is_space c then "" else String c ""
      | t => String c t
      end
  end.

(** The digits after the first one: single underscores are allowed
    between two digits. *)
Fixpoint parse_digits (acc : Z) (s : string) : option Z :=
  match s with
  | "" => Some acc
  | String c s' =>
      if is_digit c then parse_digits (acc * 10 + digit_val c) s'
      else if Ascii.eqb c "_" then
        match s' with
        | String d s'' =>
            if is_digit d then parse_digits (acc * 10 + digit_val d) s''
            else None
        | "" => None
        end
      else None
  end.

Definition parse_unsigned (s : string) : option Z :=
  match s with
  | String c s' => if is_digit c then parse_digits (digit_val c) s' else None
  | "" => None
  end.

Definition parse_signed (s : string) : option Z :=
  match s with
  | String c s' =>
      if Ascii.eqb c "-" then option_map Z.opp (parse_unsigned s')
      else if Ascii.eqb c "+" then parse_unsigned s'
      else parse_unsigned s
  | "" => None
  end.

(** [int(s)] for a string [s], base 10. *)
Definition int (s : string) : result Z :=
  match parse_signed (rstrip (lstrip s)) with
  | Some z => Ok z
  | None => Raise (ValueError s)
  end.

(** The decimal digits of a non-negative integer, most significant
    first, pushed in front of [rest]. *)
Fixpoint digits (fuel : nat) (n : Z) (rest : string) : string :=
  match fuel with
  | O => rest
  | S fuel' =>
      let rest' := String (digit_char (n mod 10)) rest in
      if n <? 10 then rest' else digits fuel' (n / 10) rest'
  end.

Definition str_nonneg (n : Z) : string :=
  digits (S (Z.to_nat (Z.log2 n))) n "".

(** [str(n)] for an int [n]. *)
Definition str (n : Z) : string :=
  if n <? 0 then String "-" (str_nonneg (- n)) else str_nonneg n.

End PyInt.

(** ** Values, formats and objects *)

(** class CurrencyFormat(Enum) *)
Inductive CurrencyFormat : Type := WHOLE | NANO.

(** What the attribute [__nanocodas] can hold: an int, or [None]. *)
Inductive nano : Type :=
| NInt (n : Z)
| NNone.

(** A [Currency] object: its identity and its one attribute, which no
    method changes after [__init__]. *)
Record Currency : Type := MkCurrency {
  ident : nat;
  nanocodas : nano  (* self.__nanocodas, also what nanocodas() returns *)
}.

(** The arguments the methods inspect with [isinstance]. *)
Inductive value : Type :=
| VInt (n : Z)
| VFloat (shown : string)   (* a float f, with shown = str(f) *)
| VStr (s : string)
| VNone
| VCurrency (c : Currency)
| VObject (cls : string).   (* an instance of any other class cls *)

(** The [format] argument: a member of [CurrencyFormat]; a tuple (with
    the text [str] gives for each of its items), which the [%] operator
    takes as its list of arguments; or any other object (with the text
    [str] gives for it). *)
Inductive format_arg : Type :=
| Format (f : CurrencyFormat)
| NotFormat (shown : string)
| TupleFormat (items : list string).

(** ['%s' % type(v)] *)
Definition class_repr (v : value) : string :=
  match v with
  | VInt _ => "<class 'int'>"
  | VFloat _ => "<class 'float'>"
  | VStr _ => "<class 'str'>"
  | VNone => "<class 'NoneType'>"
  | VCurrency _ => "<class 'CodaClient.Currency'>"
  | VObject cls => "<class '" ++ cls ++ "'>"
  end.

(** Arithmetic and comparison on attribute values: the interpreter raises
    [TypeError] when an operand is [None]. *)
Definition nano_binop {A : Type} (f : Z -> Z -> A) (a b : nano) : result A :=
  match a, b with
  | NInt x, NInt y => Ok (f x y)
  | _, _ => Raise TypeError
  end.

Definition nano_add := nano_binop Z.add.
Definition nano_sub := nano_binop Z.sub.
Definition nano_mul := nano_binop Z.mul.
Definition nano_ge := nano_binop Z.geb.

(** [str(self.__nanocodas)] *)
Definition nano_str (a : nano) : string :=
  match a with
  | NInt n => PyInt.str n
  | NNone => "None"
  end.

(** ** The class [Currency] *)

(** __nanocodas_from_int *)
Definition nanocodas_from_int (n : Z) : Z := n * 1000000000.

(** __nanocodas_from_string: with three segments or more neither branch is
    taken and the function returns [None]. *)
Definition nanocodas_from_string (s : string) : result nano :=
  let segments := PyStr.split "." s in
  match segments with
  | [seg] => n <- PyInt.int seg ;; Ok (NInt n)
  | [l; r] =>
      if (PyStr.len r <=? 9)%nat then
        n <- PyInt.int (l ++ r ++ PyStr.repeat "0" (9 - PyStr.len r)) ;;
        Ok (NInt n)
      else Raise (Exception ("invalid coda currency format: " ++ s))
  | _ => Ok NNone
  end.

(** __init__: the value stored in [self.__nanocodas]. *)
Definition Currency_init (v : value) (format : format_arg) : result nano :=
  match format with
  | Format WHOLE =>
      match v with
      | VInt n => Ok (NInt (nanocodas_from_int n))
      | VFloat shown => nanocodas_from_string shown
      | VStr s => nanocodas_from_string s
      | _ => Raise (Exception ("cannot construct whole Currency from " ++ class_repr v))
      end
  | Format NANO =>
      match v with
      | VInt n => Ok (NInt n)
      | _ => Raise (Exception ("cannot construct nano Currency from " ++ class_repr v))
      end
  | NotFormat shown => Raise (Exception ("invalid Currency format " ++ shown))
  | TupleFormat [item] => Raise (Exception ("invalid Currency format " ++ item))
  | TupleFormat _ => Raise TypeError
  end.

(** Computations that allocate objects: the next free identity goes in, and
    comes out after a successful run. *)
Definition alloc (A : Type) : Type := nat -> result (A * nat).

(** Currency(v, format): a fresh object, initialised by [__init__]. *)
Definition Currency_new (v : value) (format : format_arg) : alloc Currency :=
  fun next =>
    a <- Currency_init v format ;;
    Ok (MkCurrency next a, S next).

(** Currency(v): [format] defaults to WHOLE. *)
Definition fromWhole (v : value) : alloc Currency := Currency_new v (Format WHOLE).
Definition fromNano (v : value) : alloc Currency := Currency_new v (Format NANO).

(** decimal_format *)
Definition decimal_format (self : Currency) : string :=
  let s := nano_str (nanocodas self) in
  if (9 <? PyStr.len s)%nat then
    PyStr.slice_until_last 9 s ++ "." ++ PyStr.slice_last 9 s
  else "0." ++ PyStr.repeat "0" (9 - PyStr.len s) ++ s.

(** __str__ and __repr__ *)
Definition Currency_str (self : Currency) : string := decimal_format self.
Definition Currency_repr (self : Currency) : string :=
  "Currency(" ++ decimal_format self ++ ")".

(** __add__ *)
Definition Currency_add (self : Currency) (other : value) : alloc Currency :=
  fun next =>
    match other with
    | VCurrency o =>
        n <- nano_add (nanocodas self) (nanocodas o) ;;
        Currency_new (VInt n) (Format NANO) next
    | _ => Raise (Exception ("cannot add Currency and " ++ class_repr other))
    end.

(** __sub__ *)
Definition Currency_sub (self : Currency) (other : value) : alloc Currency :=
  fun next =>
    match other with
    | VCurrency o =>
        new_value <- nano_sub (nanocodas self) (nanocodas o) ;;
        if new_value >=? 0 then Currency_new (VInt new_value) (Format NANO) next
        else Raise CurrencyUnderflow
    | _ => Raise (Exception ("cannot subtract Currency and " ++ class_repr other))
    end.

(** __mul__ *)
Definition Currency_mul (self : Currency) (other : value) : alloc Currency :=
  fun next =>
    match other with
    | VInt k =>
        n <- nano_mul (nanocodas self) (NInt k) ;;
        Currency_new (VInt n) (Format NANO) next
    | VCurrency o =>
        n <- nano_mul (nanocodas self) (nanocodas o) ;;
        Currency_new (VInt n) (Format NANO) next
    | _ => Raise (Exception ("cannot multiply Currency and " ++ class_repr other))
    end.

(** [a == b] on two Currency objects: the class defines no [__eq__], so
    this is the comparison inherited from [object], which holds exactly
    when both operands are the same object. *)
Definition Currency_eq (a b : Currency) : bool := Nat.eqb (ident a) (ident b).

(** Programs that may call [random.randint(lo, hi)]: the call is a node
    whose continuation receives the integer drawn. *)
Inductive rand (A : Type) : Type :=
| Return (a : A)
| RandInt (lo hi : Z) (k : Z -> rand A).

Arguments Return {A} a.
Arguments RandInt {A} lo hi k.

(** [may_return p a]: some sequence of draws, each within the closed
    interval asked for, makes [p] finish with [a]. *)
Inductive may_return {A : Type} : rand A -> A -> Prop :=
| mr_return : forall a, may_return (Return a) a
| mr_randint : forall lo hi k d a,
    lo <= d <= hi -> may_return (k d) a -> may_return (RandInt lo hi k) a.

(** Number of calls to [random.randint] along the run that draws the
    lower endpoint each time. *)
Fixpoint randint_calls {A : Type} (p : rand A) : nat :=
  match p with
  | Return _ => O
  | RandInt lo _ k => S (randint_calls (k lo))
  end.

(** Currency.random *)
Definition Currency_random (lower_bound upper_bound : value) (next : nat)
  : rand (result (Currency * nat)) :=
  match lower_bound, upper_bound with
  | VCurrency l, VCurrency u =>
      match nano_ge (nanocodas u) (nanocodas l) with
      | Raise e => Return (Raise e)
      | Ok false =>
          Return (Raise (Exception
            "invalid call to Currency.random: upper_bound is not greater than lower_bound"))
      | Ok true =>
          if Currency_eq l u then Return (Ok (l, next))
          else
            match nano_sub (nanocodas u) (nanocodas l) with
            | Raise e => Return (Raise e)
            | Ok bound_range =>
                RandInt 0 bound_range (fun delta =>
                  Return (d <- Currency_new (VInt delta) (Format NANO) next ;;
                          Currency_add l (VCurrency (fst d)) (snd d)))
            end
      end
  | _, _ =>
      Return (Raise (Exception
        "invalid call to Currency.random: lower and upper bound must be instances of Currency"))
  end.

(** ** The query text sent by [Client] *)

Module PyWords.

(** The characters [str.split()] treats as blanks in ASCII text. *)
Definition is_whitespace (c : ascii) : bool :=
  let n := nat_of_ascii c in
  ((9 <=? n)%nat && (n <=? 13)%nat) || ((28 <=? n)%nat && (n <=? 32)%nat).

(** [s.split()]: the maximal runs of characters that are no blanks. *)
Fixpoint split (s : string) : list string :=
  match s with
  | "" => []
  | String c s' =>
      if is_whitespace c then split s'
      else
        match s' with
        | "" => [String c ""]
        | String d _ =>
            if is_whitespace d then String c "" :: split s'
            else match split s' with
                 | w :: ws => String c w :: ws
                 | [] => [String c ""]
                 end
        end
  end.

(** [sep.join(words)] *)
Fixpoint join (sep : string) (words : list string) : string :=
  match words with
  | [] => ""
  | [w] => w
  | w :: ws => w ++ sep ++ join sep ws
  end.

(** The text without its blanks. *)
Fixpoint without_whitespace (s : string) : string :=
  match s with
  | "" => ""
  | String c s' =>
      if is_whitespace c then without_whitespace s'
      else String c (without_whitespace s')
  end.

(** Some blank somewhere in the text. *)
Fixpoint has_whitespace (s : string) : bool :=
  match s with
  | "" => false
  | String c s' => is_whitespace c || has_whitespace s'
  end.

(** A word: not empty, no blank in it. *)
Definition is_word (w : string) : Prop := w <> "" /\ has_whitespace w = false.

(** Two blanks in a row somewhere in the text. *)
Fixpoint adjacent_whitespace (s : string) : bool :=
  match s with
  | String c (String d _ as s') =>
      (is_whitespace c && is_whitespace d) || adjacent_whitespace s'
  | _ => false
  end.

Definition starts_with_whitespace (s : string) : bool :=
  match s with
  | String c _ => is_whitespace c
  | "" => false
  end.

Fixpoint ends_with_whitespace (s : string) : bool :=
  match s with
  | "" => false
  | String c "" => is_whitespace c
  | String _ s' => ends_with_whitespace s'
  end.

End PyWords.

(** _graphql_request and _graphql_subscription, first statement:
    [query = " ".join(query.split())]. *)
Definition strip_query (query : string) : string :=
  PyWords.join " " (PyWords.split query).

(** * Properties *)

(** ** Strings *)

Module PyStrFacts.
Import PyStr.

Lemma len_app (s t : string) : len (s ++ t) = (len s + len t)%nat.
Proof. induction s as [|c s IH]; simpl; [reflexivity | now rewrite <- IH]. Qed.

Lemma len_repeat (c : ascii) (k : nat) : len (repeat c k) = k.
Proof. induction k; simpl; [reflexivity | now f_equal]. Qed.

Lemma app_empty_r (s : string) : s ++ "" = s.
Proof. induction s as [|c s IH]; simpl; [reflexivity | now rewrite IH]. Qed.

Lemma app_assoc (s t u : string) : (s ++ t) ++ u = s ++ t ++ u.
Proof. induction s as [|c s IH]; simpl; [reflexivity | now rewrite IH]. Qed.

Lemma take_drop (k : nat) (s : string) : take k s ++ drop k s = s.
Proof.
  revert s; induction k as [|k IH]; intros [|c s]; simpl; try reflexivity.
  now rewrite IH.
Qed.

Lemma len_drop (k : nat) (s : string) : len (drop k s) = (len s - k)%nat.
Proof.
  revert s; induction k as [|k IH]; intros [|c s]; simpl; try reflexivity.
  apply IH.
Qed.

Lemma len_take (k : nat) (s : string) : (k <= len s)%nat -> len (take k s) = k.
Proof.
  revert s; induction k as [|k IH]; intros [|c s]; simpl; intros H;
    try reflexivity; try lia.
  f_equal. apply IH. lia.
Qed.

Lemma slices_rejoin (k : nat) (s : string) :
  slice_until_last k s ++ slice_last k s = s.
Proof. apply take_drop. Qed.

Lemma len_slice_last (k : nat) (s : string) :
  (k <= len s)%nat -> len (slice_last k s) = k.
Proof. intros H. unfold slice_last. rewrite len_drop. lia. Qed.

Lemma len_slice_until_last (k : nat) (s : string) :
  len (slice_until_last k s) = (len s - k)%nat.
Proof. unfold slice_until_last. apply len_take. lia. Qed.

Lemma contains_app (c : ascii) (s t : string) :
  contains c (s ++ t) = contains c s || contains c t.
Proof.
  induction s as [|d s IH]; simpl; [reflexivity|].
  now rewrite IH, orb_assoc.
Qed.

Lemma contains_count (c : ascii) (s : string) :
  contains c s = false <-> count c s = O.
Proof.
  induction s as [|d s IH]; simpl; [tauto|].
  destruct (Ascii.eqb d c); simpl; [split; [discriminate | lia] | exact IH].
Qed.

Lemma count_app (c : ascii) (s t : string) :
  count c (s ++ t) = (count c s + count c t)%nat.
Proof. induction s as [|d s IH]; simpl; [reflexivity | rewrite IH; lia]. Qed.

Lemma split_not_nil (sep : ascii) (s : string) : split sep s <> [].
Proof.
  induction s as [|c s IH]; simpl; [discriminate|].
  destruct (Ascii.eqb c sep); [discriminate|].
  destruct (split sep s); discriminate.
Qed.

(** [len(s.split(sep)) == s.count(sep) + 1] *)
Lemma length_split (sep : ascii) (s : string) :
  List.length (split sep s) = S (count sep s).
Proof.
  induction s as [|c s IH]; simpl; [reflexivity|].
  destruct (Ascii.eqb c sep); simpl; [now rewrite IH|].
  destruct (split sep s) as [|seg rest] eqn:E; simpl in *; [discriminate | exact IH].
Qed.

Lemma split_without (sep : ascii) (s : string) :
  contains sep s = false -> split sep s = [s].
Proof.
  induction s as [|c s IH]; simpl; [reflexivity|].
  destruct (Ascii.eqb c sep); simpl; [discriminate|].
  intros H. now rewrite (IH H).
Qed.

Lemma split_at_first (sep : ascii) (l r : string) :
  contains sep l = false ->
  split sep (l ++ String sep r) = l :: split sep r.
Proof.
  induction l as [|c l IH]; simpl.
  - intros _. now rewrite Ascii.eqb_refl.
  - destruct (Ascii.eqb c sep); simpl; [discriminate|].
    intros H. now rewrite (IH H).
Qed.

Lemma split_one (sep : ascii) (l r : string) :
  contains sep l = false -> contains sep r = false ->
  split sep (l ++ String sep r) = [l; r].
Proof.
  intros Hl Hr. now rewrite split_at_first, split_without.
Qed.

End PyStrFacts.

(** ** Integers and their decimal text *)

Module PyIntFacts.
Import PyStr PyStrFacts PyInt.

Ltac by_cases_on_char c :=
  destruct c as [[] [] [] [] [] [] [] []]; try discriminate; try reflexivity.

Lemma digit_not_space (c : ascii) : is_digit c = true -> is_space c = false.
Proof. by_cases_on_char c. Qed.

Lemma digit_not_dot (c : ascii) : is_digit c = true -> Ascii.eqb c "." = false.
Proof. by_cases_on_char c. Qed.

Lemma digit_not_sign (c : ascii) :
  is_digit c = true -> Ascii.eqb c "-" = false /\ Ascii.eqb c "+" = false.
Proof. by_cases_on_char c; intros _; split; reflexivity. Qed.

Lemma digit_val_range (c : ascii) : is_digit c = true -> 0 <= digit_val c <= 9.
Proof. by_cases_on_char c; intros _; vm_compute; split; discriminate. Qed.

Lemma digit_char_ok (d : Z) :
  0 <= d <= 9 -> is_digit (digit_char d) = true /\ digit_val (digit_char d) = d.
Proof.
  intros H.
  assert (E : d = 0 \/ d = 1 \/ d = 2 \/ d = 3 \/ d = 4 \/ d = 5 \/ d = 6
              \/ d = 7 \/ d = 8 \/ d = 9) by lia.
  repeat (destruct E as [E | E]; [subst d; split; reflexivity|]).
  subst d; split; reflexivity.
Qed.

(** *** Strings of digits *)

Lemma all_digits_app (s t : string) :
  all_digits (s ++ t) = all_digits s && all_digits t.
Proof.
  induction s as [|c s IH]; simpl; [reflexivity|].
  now rewrite IH, andb_assoc.
Qed.

Lemma all_digits_zeros (k : nat) : all_digits (repeat "0" k) = true.
Proof. induction k; simpl; [reflexivity | assumption]. Qed.

Lemma all_digits_no_dot (s : string) :
  all_digits s = true -> contains "." s = false.
Proof.
  induction s as [|c s IH]; simpl; [reflexivity|].
  intros H. apply andb_prop in H. destruct H as [Hc Hs].
  now rewrite (digit_not_dot c Hc), (IH Hs).
Qed.

Lemma all_digits_take (k : nat) (s : string) :
  all_digits s = true -> all_digits (take k s) = true.
Proof.
  revert s; induction k as [|k IH]; intros [|c s]; simpl; try reflexivity.
  intros H. apply andb_prop in H. destruct H as [Hc Hs].
  now rewrite Hc, (IH s Hs).
Qed.

Lemma all_digits_drop (k : nat) (s : string) :
  all_digits s = true -> all_digits (drop k s) = true.
Proof.
  revert s; induction k as [|k IH]; intros [|c s]; simpl; try reflexivity;
    try (intros H; exact H).
  intros H. apply andb_prop in H. destruct H as [_ Hs]. now apply IH.
Qed.

Lemma lstrip_digits (s : string) : all_digits s = true -> lstrip s = s.
Proof.
  destruct s as [|c s]; simpl; [reflexivity|].
  intros H. apply andb_prop in H. destruct H as [Hc _].
  now rewrite (digit_not_space c Hc).
Qed.

Lemma rstrip_digits (s : string) : all_digits s = true -> rstrip s = s.
Proof.
  induction s as [|c s IH]; simpl; [reflexivity|].
  intros H. apply andb_prop in H. destruct H as [Hc Hs].
  rewrite (IH Hs), (digit_not_space c Hc). now destruct s.
Qed.

Lemma digits_value_app (acc : Z) (s t : string) :
  digits_value acc (s ++ t) = digits_value (digits_value acc s) t.
Proof. revert acc; induction s as [|c s IH]; simpl; intros; [reflexivity | apply IH]. Qed.

Lemma digits_value_zeros (acc : Z) (k : nat) :
  digits_value acc (repeat "0" k) = acc * 10 ^ Z.of_nat k.
Proof.
  revert acc; induction k as [|k IH]; intros acc.
  - simpl. lia.
  - cbn [repeat digits_value]. rewrite IH.
    replace (digit_val "0") with 0 by reflexivity.
    rewrite Nat2Z.inj_succ, Z.pow_succ_r by lia. lia.
Qed.

(** Positional reading: the accumulated digits are shifted left by the
    length of what follows. *)
Lemma digits_value_shift (acc : Z) (s : string) :
  digits_value acc s = acc * 10 ^ Z.of_nat (len s) + digits_value 0 s.
Proof.
  revert acc; induction s as [|c s IH]; intros acc.
  - simpl. lia.
  - cbn [digits_value len String.length].
    rewrite (IH (acc * 10 + digit_val c)), (IH (0 * 10 + digit_val c)).
    fold (len s). rewrite Nat2Z.inj_succ, Z.pow_succ_r by lia. lia.
Qed.

Lemma parse_digits_all_digits (acc : Z) (s : string) :
  all_digits s = true -> parse_digits acc s = Some (digits_value acc s).
Proof.
  revert acc; induction s as [|c s IH]; simpl; intros acc H; [reflexivity|].
  apply andb_prop in H. destruct H as [Hc Hs].
  rewrite Hc. now apply IH.
Qed.

(** [int] on a non-empty string of digits. *)
Lemma int_all_digits (s : string) :
  all_digits s = true -> s <> "" -> int s = Ok (digits_value 0 s).
Proof.
  intros H Hne. unfold int.
  rewrite (lstrip_digits s H), (rstrip_digits s H).
  destruct s as [|c s]; [congruence|].
  simpl in H. apply andb_prop in H. destruct H as [Hc Hs].
  unfold parse_signed.
  destruct (digit_not_sign c Hc) as [-> ->].
  unfold parse_unsigned. rewrite Hc.
  now rewrite (parse_digits_all_digits _ s Hs).
Qed.

(** *** The text of a non-negative integer *)

Lemma digits_all_digits (fuel : nat) (n : Z) (rest : string) :
  0 <= n -> all_digits rest = true -> all_digits (digits fuel n rest) = true.
Proof.
  revert n rest; induction fuel as [|fuel IH]; intros n rest Hn Hrest;
    simpl; [assumption|].
  assert (Hd : is_digit (digit_char (n mod 10)) = true).
  { apply digit_char_ok. pose proof (Z.mod_pos_bound n 10). lia. }
  destruct (n <? 10).
  - simpl. now rewrite Hd.
  - apply IH; [apply Z.div_pos; lia | simpl; now rewrite Hd].
Qed.

Lemma len_digits (fuel : nat) (n : Z) (rest : string) :
  (len rest <= len (digits fuel n rest))%nat.
Proof.
  revert n rest; induction fuel as [|fuel IH]; intros n rest; simpl; [lia|].
  destruct (n <? 10); [simpl; lia|].
  specialize (IH (n / 10) (String (digit_char (n mod 10)) rest)).
  simpl in IH. unfold len in *. lia.
Qed.

Lemma digits_value_digits (fuel : nat) (n : Z) (rest : string) :
  0 <= n < 10 ^ Z.of_nat fuel ->
  digits_value 0 (digits fuel n rest) = digits_value n rest.
Proof.
  revert n rest; induction fuel as [|fuel IH]; intros n rest Hn.
  - simpl in *. now replace n with 0 by lia.
  - cbn [digits].
    assert (Hm : 0 <= n mod 10 <= 9) by (pose proof (Z.mod_pos_bound n 10); lia).
    destruct (digit_char_ok _ Hm) as [_ Hv].
    destruct (Z.ltb_spec n 10) as [Hlt | Hge].
    + cbn [digits_value]. rewrite Hv, Z.mod_small by lia. reflexivity.
    + rewrite IH.
      * cbn [digits_value]. rewrite Hv. f_equal.
        pose proof (Z.div_mod n 10). lia.
      * rewrite Nat2Z.inj_succ, Z.pow_succ_r in Hn by lia.
        split; [apply Z.div_pos; lia | apply Z.div_lt_upper_bound; lia].
Qed.

Lemma str_nonneg_fuel (n : Z) :
  0 <= n -> n < 10 ^ Z.of_nat (S (Z.to_nat (Z.log2 n))).
Proof.
  intros Hn. rewrite Nat2Z.inj_succ, Z2Nat.id by apply Z.log2_nonneg.
  destruct (Z.eq_dec n 0) as [-> | Hnz]; [reflexivity|].
  pose proof (Z.log2_spec n ltac:(lia)) as [_ Hup].
  apply Z.lt_le_trans with (1 := Hup).
  apply Z.pow_le_mono_l. pose proof (Z.log2_nonneg n). lia.
Qed.

Lemma str_nonneg_all_digits (n : Z) : 0 <= n -> all_digits (str_nonneg n) = true.
Proof. intros Hn. now apply digits_all_digits. Qed.

Lemma str_nonneg_not_empty (n : Z) : str_nonneg n <> "".
Proof.
  unfold str_nonneg. cbn [digits].
  destruct (n <? 10); [discriminate|].
  intros E.
  pose proof (len_digits (Z.to_nat (Z.log2 n)) (n / 10)
                (String (digit_char (n mod 10)) "")) as H.
  rewrite E in H. simpl in H. lia.
Qed.

Lemma str_nonneg_value (n : Z) : 0 <= n -> digits_value 0 (str_nonneg n) = n.
Proof.
  intros Hn. unfold str_nonneg.
  rewrite digits_value_digits; [reflexivity|].
  split; [assumption | now apply str_nonneg_fuel].
Qed.

Lemma str_of_nonneg (n : Z) : 0 <= n -> str n = str_nonneg n.
Proof. intros Hn. unfold str. destruct (Z.ltb_spec n 0); [lia | reflexivity]. Qed.

(** [int(str(n)) == n], also with zeros in front. *)
Lemma int_zeros_str (k : nat) (n : Z) :
  0 <= n -> int (repeat "0" k ++ str n) = Ok n.
Proof.
  intros Hn. rewrite (str_of_nonneg n Hn), int_all_digits.
  - rewrite digits_value_app, digits_value_zeros. simpl.
    now rewrite str_nonneg_value.
  - now rewrite all_digits_app, all_digits_zeros, str_nonneg_all_digits.
  - intros E. apply (f_equal len) in E. rewrite len_app in E.
    pose proof (str_nonneg_not_empty n) as Hne.
    destruct (str_nonneg n); [congruence | simpl in E; lia].
Qed.

(** *** What [int] refuses *)

Lemma lstrip_keeps (c : ascii) (s : string) :
  is_space c = false -> contains c s = true -> contains c (lstrip s) = true.
Proof.
  intros Hc. induction s as [|d s IH]; simpl; [discriminate|].
  destruct (is_space d) eqn:Hd; simpl; [|tauto].
  destruct (Ascii.eqb_spec d c) as [-> | _]; [congruence | exact IH].
Qed.

Lemma rstrip_keeps (c : ascii) (s : string) :
  is_space c = false -> contains c s = true -> contains c (rstrip s) = true.
Proof.
  intros Hc. induction s as [|d s IH]; simpl; [discriminate|].
  intros H. apply orb_prop in H.
  destruct (rstrip s) as [|e t] eqn:E.
  - destruct H as [H | H]; [|specialize (IH H); discriminate].
    apply Ascii.eqb_eq in H. subst d. rewrite Hc. simpl.
    now rewrite Ascii.eqb_refl.
  - destruct H as [H | H]; [simpl; now rewrite H | ].
    cbn [contains]. rewrite orb_true_iff. right. now apply IH.
Qed.

(** A character that is neither a digit nor an underscore stops the
    digit loop. *)
Lemma parse_digits_refuses (c : ascii) :
  is_digit c = false -> Ascii.eqb c "_" = false ->
  forall (k : nat) (s : string) (acc : Z),
    (len s <= k)%nat -> contains c s = true -> parse_digits acc s = None.
Proof.
  intros Hd Hu. induction k as [|k IH]; intros s acc Hlen Hin.
  - destruct s; [discriminate | simpl in Hlen; lia].
  - destruct s as [|d s]; [discriminate|].
    cbn [contains] in Hin. cbn [parse_digits].
    destruct (Ascii.eqb_spec d c) as [-> | Hdc].
    + now rewrite Hd, Hu.
    + simpl in Hin, Hlen.
      destruct (is_digit d); [apply IH; [lia | assumption]|].
      destruct (Ascii.eqb d "_"); [|reflexivity].
      destruct s as [|d' s]; [reflexivity|].
      cbn [contains] in Hin.
      destruct (Ascii.eqb_spec d' c) as [-> | _]; [now rewrite Hd|].
      simpl in Hin, Hlen.
      destruct (is_digit d'); [apply IH; [lia | assumption] | reflexivity].
Qed.

Lemma parse_unsigned_refuses (c : ascii) (s : string) :
  is_digit c = false -> Ascii.eqb c "_" = false ->
  contains c s = true -> parse_unsigned s = None.
Proof.
  intros Hd Hu Hin. destruct s as [|d s]; [reflexivity|].
  cbn [contains] in Hin. unfold parse_unsigned.
  destruct (Ascii.eqb_spec d c) as [-> | _]; [now rewrite Hd|].
  simpl in Hin. destruct (is_digit d); [|reflexivity].
  now apply (parse_digits_refuses c Hd Hu (len s)).
Qed.

(** [int(s)] raises [ValueError] as soon as [s] holds a character that
    is no digit, underscore, sign or blank. *)
Lemma int_refuses (c : ascii) (s : string) :
  is_digit c = false -> Ascii.eqb c "_" = false -> is_space c = false ->
  Ascii.eqb c "-" = false -> Ascii.eqb c "+" = false ->
  contains c s = true -> int s = Raise (ValueError s).
Proof.
  intros Hd Hu Hsp Hm Hp Hin. unfold int.
  pose proof (rstrip_keeps c _ Hsp (lstrip_keeps c s Hsp Hin)) as H.
  destruct (rstrip (lstrip s)) as [|d t]; [reflexivity|].
  unfold parse_signed.
  destruct (Ascii.eqb_spec d "-") as [-> | _];
    [|destruct (Ascii.eqb_spec d "+") as [-> | _]].
  - cbn [contains] in H. rewrite Ascii.eqb_sym, Hm in H. simpl in H.
    now rewrite (parse_unsigned_refuses c t Hd Hu H).
  - cbn [contains] in H. rewrite Ascii.eqb_sym, Hp in H. simpl in H.
    now rewrite (parse_unsigned_refuses c t Hd Hu H).
  - now rewrite (parse_unsigned_refuses c _ Hd Hu H).
Qed.

End PyIntFacts.

(** ** The class [Currency] *)

Module CurrencyFacts.
Import PyStr PyStrFacts PyInt PyIntFacts.

Lemma bind_ok {A B : Type} (m : result A) (a : A) (f : A -> result B) :
  m = Ok a -> bind m f = f a.
Proof. now intros ->. Qed.

(** With two periods or more, [__nanocodas_from_string] takes neither
    branch. *)
Lemma from_string_many_periods (s : string) :
  (2 <= count "." s)%nat -> nanocodas_from_string s = Ok NNone.
Proof.
  intros H. unfold nanocodas_from_string.
  pose proof (length_split "." s) as Hlen.
  destruct (split "." s) as [|a [|b [|c rest]]]; simpl in Hlen; try lia.
  reflexivity.
Qed.

Lemma from_string_no_period (s : string) :
  contains "." s = false ->
  nanocodas_from_string s = (n <- int s ;; Ok (NInt n)).
Proof.
  intros H. unfold nanocodas_from_string. now rewrite (split_without "." s H).
Qed.

Lemma from_string_one_period (l r : string) :
  contains "." l = false -> contains "." r = false ->
  nanocodas_from_string (l ++ "." ++ r) =
    if (len r <=? 9)%nat then
      n <- int (l ++ r ++ repeat "0" (9 - len r)) ;; Ok (NInt n)
    else Raise (Exception ("invalid coda currency format: " ++ l ++ "." ++ r)).
Proof.
  intros Hl Hr. unfold nanocodas_from_string.
  change (l ++ "." ++ r) with (l ++ String "." r).
  now rewrite (split_one "." l r Hl Hr).
Qed.

(** The two parts [decimal_format] puts around the period. *)
Lemma decimal_format_parts (self : Currency) :
  let s := nano_str (nanocodas self) in
  exists ip fp : string,
    decimal_format self = ip ++ "." ++ fp /\
    len fp = 9%nat /\
    ((9 < len s)%nat -> ip = slice_until_last 9 s /\ fp = slice_last 9 s) /\
    ((len s <= 9)%nat -> ip = "0" /\ fp = repeat "0" (9 - len s) ++ s).
Proof.
  intros s. unfold decimal_format. fold s.
  destruct (Nat.ltb_spec 9 (len s)) as [Hlong | Hshort].
  - exists (slice_until_last 9 s), (slice_last 9 s).
    repeat split; try lia.
    apply len_slice_last. lia.
  - exists "0", (repeat "0" (9 - len s) ++ s).
    repeat split; try lia.
    rewrite len_app, len_repeat. lia.
Qed.

(** For a non-negative count both parts are digits, and read together
    they denote the count. *)
Lemma decimal_format_digits (n : Z) (ip fp : string) :
  0 <= n ->
  let s := PyInt.str n in
  ((9 < len s)%nat -> ip = slice_until_last 9 s /\ fp = slice_last 9 s) ->
  ((len s <= 9)%nat -> ip = "0" /\ fp = repeat "0" (9 - len s) ++ s) ->
  all_digits ip = true /\ ip <> "" /\ all_digits fp = true /\
  digits_value 0 (ip ++ fp) = n.
Proof.
  intros Hn s Hlong Hshort. subst s.
  rewrite (str_of_nonneg n Hn) in Hlong, Hshort.
  pose proof (str_nonneg_all_digits n Hn) as Hd.
  pose proof (str_nonneg_value n Hn) as Hv.
  destruct (Nat.ltb_spec 9 (len (str_nonneg n))) as [H | H].
  - destruct (Hlong H) as [-> ->].
    split; [now apply all_digits_take|].
    split.
    { intros E. apply (f_equal len) in E.
      rewrite len_slice_until_last in E.
      change (len "") with 0%nat in E. lia. }
    split; [now apply all_digits_drop|].
    now rewrite slices_rejoin.
  - destruct (Hshort H) as [-> ->].
    split; [reflexivity|]. split; [discriminate|].
    split; [now rewrite all_digits_app, all_digits_zeros|].
    change ("0" ++ repeat "0" (9 - len (str_nonneg n)) ++ str_nonneg n)
      with (repeat "0" (S (9 - len (str_nonneg n))) ++ str_nonneg n).
    rewrite digits_value_app, digits_value_zeros. simpl (0 * _).
    exact Hv.
Qed.

Lemma from_string_decimal_format (self : Currency) (n : Z) :
  nanocodas self = NInt n -> 0 <= n ->
  nanocodas_from_string (decimal_format self) = Ok (NInt n).
Proof.
  intros Hself Hn.
  destruct (decimal_format_parts self) as (ip & fp & -> & Hlen & Hlong & Hshort).
  rewrite Hself in Hlong, Hshort. cbn [nano_str] in Hlong, Hshort.
  destruct (decimal_format_digits n ip fp Hn Hlong Hshort) as (Hip & Hne & Hfp & Hv).
  rewrite from_string_one_period by now apply all_digits_no_dot.
  rewrite Hlen. cbn [Nat.leb Nat.sub repeat].
  rewrite app_empty_r, int_all_digits.
  - now rewrite Hv.
  - now rewrite all_digits_app, Hip, Hfp.
  - destruct ip; [congruence | discriminate].
Qed.

End CurrencyFacts.

(** * The specification's claims *)

(** Values the specification quotes. *)
Example decimal_format_five_whole :
  decimal_format (MkCurrency 0 (NInt 5000000000)) = "5.000000000".
Proof. reflexivity. Qed.

Example decimal_format_123_nano :
  decimal_format (MkCurrency 0 (NInt 123)) = "0.000000123".
Proof. reflexivity. Qed.

Example add_one_two :
  (a <- fromWhole (VInt 1) 0%nat ;;
   b <- fromWhole (VInt 2) (snd a) ;;
   c <- Currency_add (fst a) (VCurrency (fst b)) (snd b) ;;
   Ok (nanocodas (fst c))) = Ok (NInt 3000000000).
Proof. reflexivity. Qed.

Example mul_two_by_three :
  (a <- fromWhole (VInt 2) 0%nat ;;
   c <- Currency_mul (fst a) (VInt 3) (snd a) ;;
   Ok (nanocodas (fst c))) = Ok (NInt 6000000000).
Proof. reflexivity. Qed.

(** ** C1: equality *)

(** C1, as stated, fails: [fromWhole(1)] and [fromNano(1000000000)] hold the
    same nanocodas, and [==] on them is false. *)
Lemma eq_whole_one_nano_billion_false :
  fromWhole (VInt 1) 0%nat = Ok (MkCurrency 0 (NInt 1000000000), 1%nat) /\
  fromNano (VInt 1000000000) 1%nat = Ok (MkCurrency 1 (NInt 1000000000), 2%nat) /\
  nanocodas (MkCurrency 0 (NInt 1000000000)) = nanocodas (MkCurrency 1 (NInt 1000000000)) /\
  Currency_eq (MkCurrency 0 (NInt 1000000000)) (MkCurrency 1 (NInt 1000000000)) = false.
Proof. repeat split. Qed.

(** C1, amended: [a == b] holds exactly when [a] and [b] are the same
    object.  Every instance equals itself; an instance is never equal to one
    constructed later, at whatever point of the run and whatever nanocodas
    the two hold: the constructor gives each object the next identity and
    moves the counter past it. *)
Theorem eq_is_identity :
  (forall a b : Currency, Currency_eq a b = true <-> ident a = ident b) /\
  (forall a : Currency, Currency_eq a a = true) /\
  (forall v1 f1 v2 f2 next a k1 next' b k2,
      Currency_new v1 f1 next = Ok (a, k1) ->
      (k1 <= next')%nat ->
      Currency_new v2 f2 next' = Ok (b, k2) ->
      ident a = next /\ k1 = S next /\
      Currency_eq a b = false /\ Currency_eq b a = false).
Proof.
  split; [|split].
  - intros a b. apply Nat.eqb_eq.
  - intros a. apply Nat.eqb_refl.
  - intros v1 f1 v2 f2 next a k1 next' b k2 Ha Hle Hb.
    unfold Currency_new in Ha, Hb.
    destruct (Currency_init v1 f1); [|discriminate].
    destruct (Currency_init v2 f2); [|discriminate].
    simpl in Ha, Hb. injection Ha as <- <-. injection Hb as <- _.
    unfold Currency_eq. simpl.
    repeat split; apply Nat.eqb_neq; lia.
Qed.

Lemma eq_is_identity_witness :
  Currency_eq (MkCurrency 0 (NInt 1000000000)) (MkCurrency 5 (NInt 1000000000)) = false.
Proof.
  refine (proj1 (proj2 (proj2 (proj2 (proj2 eq_is_identity)
            (VInt 1) (Format WHOLE) (VInt 1000000000) (Format NANO)
            0%nat (MkCurrency 0 (NInt 1000000000)) 1%nat
            5%nat (MkCurrency 5 (NInt 1000000000)) 6%nat eq_refl _ eq_refl)))).
  lia.
Defined.

(** ** C2 and C3: what a string with several periods constructs *)

(** C2: the construction [Currency("1.2.3")] returns, and the instance holds
    [None], which is no integer; its decimal format shows it. *)
Theorem three_segments_store_none :
  fromWhole (VStr "1.2.3") 0%nat = Ok (MkCurrency 0 NNone, 1%nat) /\
  (forall n : Z, nanocodas (MkCurrency 0 NNone) <> NInt n) /\
  decimal_format (MkCurrency 0 NNone) = "0.00000None".
Proof. repeat split. discriminate. Qed.

(** C3: a string with two periods or more raises nothing: the constructor
    returns an instance holding [None].  With exactly one period and more
    than nine characters after it, the format exception is raised. *)
Theorem many_periods_raise_nothing (s : string) (next : nat) :
  (2 <= PyStr.count "." s)%nat ->
  fromWhole (VStr s) next = Ok (MkCurrency next NNone, S next).
Proof.
  intros H. unfold fromWhole, Currency_new, Currency_init.
  now rewrite (CurrencyFacts.from_string_many_periods s H).
Qed.

Lemma many_periods_raise_nothing_witness :
  fromWhole (VStr "192.168.0.1") 7%nat = Ok (MkCurrency 7 NNone, 8%nat).
Proof. apply (many_periods_raise_nothing "192.168.0.1" 7). simpl. lia. Defined.

(** The format exception, on the path that does raise it. *)
Lemma long_fraction_raises (l r : string) (next : nat) :
  PyStr.contains "." l = false -> PyStr.contains "." r = false ->
  (9 < PyStr.len r)%nat ->
  fromWhole (VStr (l ++ "." ++ r)) next =
    Raise (Exception ("invalid coda currency format: " ++ l ++ "." ++ r)).
Proof.
  intros Hl Hr Hlen. unfold fromWhole, Currency_new, Currency_init.
  rewrite (CurrencyFacts.from_string_one_period l r Hl Hr).
  destruct (Nat.leb_spec (PyStr.len r) 9); [lia | reflexivity].
Qed.

(** ** C4: Currency.random *)

(** C4, as stated, fails: two instances holding the same nanocodas are not
    [==], so [random] on them does call [random.randint], with the range
    [0, 0]. *)
Lemma random_equal_values_calls_randint :
  fromNano (VInt 5) 0%nat = Ok (MkCurrency 0 (NInt 5), 1%nat) /\
  fromNano (VInt 5) 1%nat = Ok (MkCurrency 1 (NInt 5), 2%nat) /\
  Currency_random (VCurrency (MkCurrency 0 (NInt 5))) (VCurrency (MkCurrency 1 (NInt 5))) 2%nat
    = RandInt 0 0 (fun delta => Return (Ok (MkCurrency 3 (NInt (5 + delta)), 4%nat))) /\
  randint_calls
    (Currency_random (VCurrency (MkCurrency 0 (NInt 5))) (VCurrency (MkCurrency 1 (NInt 5))) 2%nat)
    = 1%nat.
Proof. repeat split. Qed.

(** C4, amended: for bounds with [upper_bound.nanocodas() >=
    lower_bound.nanocodas()], [random] returns [lower_bound] itself without
    calling [random.randint] when both bounds are the same object;
    otherwise (also when two distinct instances hold the same nanocodas) it
    calls [random.randint(0, upper - lower)] once and returns a new instance
    holding [lower + delta], so every result lies between the bounds.
    Inverted bounds and arguments that are no Currency instances raise
    [Exception] with the 'invalid call to Currency.random' messages. *)
Theorem random_between :
  (forall (l u : Currency) (x y : Z) (next : nat),
      nanocodas l = NInt x -> nanocodas u = NInt y -> x <= y ->
      (Currency_eq l u = true ->
       Currency_random (VCurrency l) (VCurrency u) next = Return (Ok (l, next))) /\
      (Currency_eq l u = false ->
       Currency_random (VCurrency l) (VCurrency u) next =
         RandInt 0 (y - x) (fun delta =>
           Return (Ok (MkCurrency (S next) (NInt (x + delta)), S (S next))))) /\
      (forall r, may_return (Currency_random (VCurrency l) (VCurrency u) next) r ->
         exists v k z, r = Ok (v, k) /\ nanocodas v = NInt z /\ x <= z <= y)) /\
  (forall (l u : Currency) (x y : Z) (next : nat),
      nanocodas l = NInt x -> nanocodas u = NInt y -> y < x ->
      Currency_random (VCurrency l) (VCurrency u) next =
        Return (Raise (Exception
          "invalid call to Currency.random: upper_bound is not greater than lower_bound"))) /\
  (forall (a b : value) (next : nat),
      (forall c, a <> VCurrency c) \/ (forall c, b <> VCurrency c) ->
      Currency_random a b next =
        Return (Raise (Exception
          "invalid call to Currency.random: lower and upper bound must be instances of Currency"))).
Proof.
  split; [|split].
  - intros [il nl] [iu nu] x y next Hl Hu Hxy. simpl in Hl, Hu. subst nl nu.
    assert (Hge : (y >=? x) = true) by (apply Z.geb_le; lia).
    assert (Hsame : Currency_eq (MkCurrency il (NInt x)) (MkCurrency iu (NInt y)) = true ->
                    Currency_random (VCurrency (MkCurrency il (NInt x)))
                      (VCurrency (MkCurrency iu (NInt y))) next
                    = Return (Ok (MkCurrency il (NInt x), next))).
    { intros E. unfold Currency_random. cbn [nanocodas nano_ge nano_binop].
      now rewrite Hge, E. }
    assert (Hdiff : Currency_eq (MkCurrency il (NInt x)) (MkCurrency iu (NInt y)) = false ->
                    Currency_random (VCurrency (MkCurrency il (NInt x)))
                      (VCurrency (MkCurrency iu (NInt y))) next
                    = RandInt 0 (y - x) (fun delta =>
                        Return (Ok (MkCurrency (S next) (NInt (x + delta)), S (S next))))).
    { intros E. unfold Currency_random. cbn [nanocodas nano_ge nano_binop].
      now rewrite Hge, E. }
    split; [exact Hsame|]. split; [exact Hdiff|].
    intros r Hr.
    destruct (Currency_eq (MkCurrency il (NInt x)) (MkCurrency iu (NInt y))) eqn:E.
    + rewrite (Hsame eq_refl) in Hr. inversion Hr; subst.
      exists (MkCurrency il (NInt x)), next, x. simpl. repeat split; lia.
    + rewrite (Hdiff eq_refl) in Hr. inversion Hr as [|lo hi k d a Hd Hk]; subst.
      inversion Hk; subst.
      eexists _, _, (x + d). simpl. repeat split; lia.
  - intros [il nl] [iu nu] x y next Hl Hu Hxy. simpl in Hl, Hu. subst nl nu.
    unfold Currency_random. cbn [nanocodas nano_ge nano_binop].
    assert (Hge : (y >=? x) = false).
    { rewrite Z.geb_leb. apply Z.leb_gt. lia. }
    now rewrite Hge.
  - intros a b next [H | H].
    + destruct a; try reflexivity. now destruct (H c).
    + destruct b; try (destruct a; reflexivity). now destruct (H c).
Qed.

Lemma random_between_witness :
  Currency_random (VCurrency (MkCurrency 0 (NInt 2))) (VCurrency (MkCurrency 1 (NInt 7))) 2%nat
    = RandInt 0 (7 - 2) (fun delta => Return (Ok (MkCurrency 3 (NInt (2 + delta)), 4%nat))) /\
  Currency_random (VCurrency (MkCurrency 0 (NInt 2))) (VCurrency (MkCurrency 0 (NInt 2))) 1%nat
    = Return (Ok (MkCurrency 0 (NInt 2), 1%nat)).
Proof.
  split.
  - refine (proj1 (proj2 (proj1 random_between
              (MkCurrency 0 (NInt 2)) (MkCurrency 1 (NInt 7)) 2 7 2%nat eq_refl eq_refl _))
              eq_refl).
    lia.
  - refine (proj1 (proj1 random_between
              (MkCurrency 0 (NInt 2)) (MkCurrency 0 (NInt 2)) 2 2 1%nat eq_refl eq_refl _)
              eq_refl).
    lia.
Defined.

(** ** C5: subtraction *)

(** C5: for two instances holding integers, [a - b] returns
    [Currency(diff, NANO)] when [diff >= 0] and raises [CurrencyUnderflow]
    otherwise; [CurrencyUnderflow] is raised by nothing else, carries no
    payload and differs from every [Exception]; an operand that is no
    Currency raises [Exception('cannot subtract Currency and ...')]. *)
Theorem sub_underflow :
  (forall (a b : Currency) (x y : Z) (next : nat),
      nanocodas a = NInt x -> nanocodas b = NInt y -> 0 <= x - y ->
      Currency_sub a (VCurrency b) next = fromNano (VInt (x - y)) next /\
      fromNano (VInt (x - y)) next = Ok (MkCurrency next (NInt (x - y)), S next)) /\
  (forall (a b : Currency) (next : nat),
      Currency_sub a (VCurrency b) next = Raise CurrencyUnderflow <->
      exists x y, nanocodas a = NInt x /\ nanocodas b = NInt y /\ x - y < 0) /\
  (forall msg : string, CurrencyUnderflow <> Exception msg) /\
  (forall (a : Currency) (other : value) (next : nat),
      (forall c, other <> VCurrency c) ->
      Currency_sub a other next =
        Raise (Exception ("cannot subtract Currency and " ++ class_repr other))).
Proof.
  split; [|split; [|split]].
  - intros a b x y next Ha Hb Hd. unfold Currency_sub. rewrite Ha, Hb.
    cbn [nano_sub nano_binop bind].
    destruct (Z.geb_spec (x - y) 0); [split; reflexivity | lia].
  - intros a b next. unfold Currency_sub. split.
    + destruct (nanocodas a) as [x|], (nanocodas b) as [y|];
        cbn [nano_sub nano_binop bind]; try discriminate.
      destruct (Z.geb_spec (x - y) 0); [discriminate|].
      intros _. exists x, y. repeat split. lia.
    + intros (x & y & -> & -> & Hd). cbn [nano_sub nano_binop bind].
      destruct (Z.geb_spec (x - y) 0); [lia | reflexivity].
  - discriminate.
  - intros a other next H. destruct other; try reflexivity. now destruct (H c).
Qed.

Lemma sub_underflow_witness :
  Currency_sub (MkCurrency 0 (NInt 1000000000)) (VCurrency (MkCurrency 1 (NInt 2000000000))) 2%nat
    = Raise CurrencyUnderflow /\
  Currency_sub (MkCurrency 1 (NInt 2000000000)) (VCurrency (MkCurrency 0 (NInt 1000000000))) 2%nat
    = fromNano (VInt (2000000000 - 1000000000)) 2%nat.
Proof.
  split.
  - apply (proj1 (proj2 sub_underflow)).
    exists 1000000000, 2000000000. repeat split.
  - apply (proj1 sub_underflow
             (MkCurrency 1 (NInt 2000000000)) (MkCurrency 0 (NInt 1000000000))
             2000000000 1000000000 2%nat eq_refl eq_refl).
    lia.
Defined.

(** ** C6: an int is scaled, a string without a period is not *)

(** C6: [Currency(n)] holds [n * 10^9] for every int [n]; for a string [s]
    without a period the constructor stores [int(s)] as it is, so a string
    of digits gives the number it denotes, unscaled. *)
Theorem whole_int_scaled_bare_string_not (next : nat) :
  (forall n : Z,
      fromWhole (VInt n) next = Ok (MkCurrency next (NInt (n * 10 ^ 9)), S next)) /\
  (forall s : string,
      PyStr.contains "." s = false ->
      fromWhole (VStr s) next =
        (n <- PyInt.int s ;; Ok (MkCurrency next (NInt n), S next))) /\
  (forall s : string,
      PyInt.all_digits s = true -> s <> "" ->
      fromWhole (VStr s) next =
        Ok (MkCurrency next (NInt (PyInt.digits_value 0 s)), S next)).
Proof.
  split; [|split].
  - intros n. reflexivity.
  - intros s H. unfold fromWhole, Currency_new, Currency_init.
    rewrite (CurrencyFacts.from_string_no_period s H).
    now destruct (PyInt.int s).
  - intros s Hd Hne. unfold fromWhole, Currency_new, Currency_init.
    rewrite (CurrencyFacts.from_string_no_period s (PyIntFacts.all_digits_no_dot s Hd)).
    now rewrite (PyIntFacts.int_all_digits s Hd Hne).
Qed.

Lemma whole_int_scaled_bare_string_not_witness :
  fromWhole (VInt 5) 0%nat = Ok (MkCurrency 0 (NInt 5000000000), 1%nat) /\
  fromWhole (VStr "5") 0%nat = Ok (MkCurrency 0 (NInt 5), 1%nat).
Proof.
  split.
  - apply (proj1 (whole_int_scaled_bare_string_not 0) 5).
  - apply (proj2 (proj2 (whole_int_scaled_bare_string_not 0)) "5");
      [reflexivity | discriminate].
Defined.

(** ** C7: a string with one period *)

(** C7: for [L] and [R] without a period and [len(R) <= 9],
    [Currency("L.R")] stores [int(L + R + '0' * (9 - len(R)))]; when [L] and
    [R] are digits this is the integer the concatenation denotes, that is
    [L] scaled by 10^9 plus [R] scaled by 10^(9 - len(R)). *)
Theorem whole_string_one_period (L R : string) (next : nat) :
  PyStr.contains "." L = false -> PyStr.contains "." R = false ->
  (PyStr.len R <= 9)%nat ->
  fromWhole (VStr (L ++ "." ++ R)) next =
    (n <- PyInt.int (L ++ R ++ PyStr.repeat "0" (9 - PyStr.len R)) ;;
     Ok (MkCurrency next (NInt n), S next)) /\
  (PyInt.all_digits L = true -> PyInt.all_digits R = true ->
   fromWhole (VStr (L ++ "." ++ R)) next =
     Ok (MkCurrency next
           (NInt (PyInt.digits_value 0 (L ++ R ++ PyStr.repeat "0" (9 - PyStr.len R)))),
         S next) /\
   PyInt.digits_value 0 (L ++ R ++ PyStr.repeat "0" (9 - PyStr.len R)) =
     PyInt.digits_value 0 L * 10 ^ 9
     + PyInt.digits_value 0 R * 10 ^ Z.of_nat (9 - PyStr.len R)).
Proof.
  intros HL HR Hlen.
  assert (E : fromWhole (VStr (L ++ "." ++ R)) next =
              (n <- PyInt.int (L ++ R ++ PyStr.repeat "0" (9 - PyStr.len R)) ;;
               Ok (MkCurrency next (NInt n), S next))).
  { unfold fromWhole, Currency_new, Currency_init.
    rewrite (CurrencyFacts.from_string_one_period L R HL HR).
    destruct (Nat.leb_spec (PyStr.len R) 9); [|lia].
    now destruct (PyInt.int _). }
  split; [exact E|].
  intros HdL HdR. split.
  - rewrite E, PyIntFacts.int_all_digits; [reflexivity | |].
    + now rewrite !PyIntFacts.all_digits_app, HdL, HdR, PyIntFacts.all_digits_zeros.
    + intros E0. apply (f_equal PyStr.len) in E0.
      rewrite !PyStrFacts.len_app, PyStrFacts.len_repeat in E0.
      change (PyStr.len "") with 0%nat in E0. lia.
  - rewrite PyIntFacts.digits_value_app, PyIntFacts.digits_value_shift.
    rewrite PyStrFacts.len_app, PyStrFacts.len_repeat.
    replace (PyStr.len R + (9 - PyStr.len R))%nat with 9%nat by lia.
    rewrite PyIntFacts.digits_value_app, PyIntFacts.digits_value_zeros.
    reflexivity.
Qed.

Lemma whole_string_one_period_witness :
  fromWhole (VStr ("12" ++ "." ++ "345")) 0%nat =
    Ok (MkCurrency 0 (NInt 12345000000), 1%nat).
Proof.
  exact (proj1 (proj2 (whole_string_one_period "12" "345" 0 eq_refl eq_refl
                         ltac:(simpl; lia)) eq_refl eq_refl)).
Defined.

(** ** C8: decimal_format *)

(** C8: with [s = str(self.__nanocodas)], [decimal_format] returns
    [s[:-9] + '.' + s[-9:]] when [len(s) > 9] and ['0.'] followed by [s]
    padded with zeros to nine characters otherwise: two pieces of [s] around
    one period, always nine characters after it.  For a non-negative count
    every character but the period is a digit (no exponent is ever
    written), the integer part is not empty, and the digits read together
    denote the count exactly. *)
Theorem decimal_format_slices (self : Currency) :
  let s := nano_str (nanocodas self) in
  exists ip fp : string,
    decimal_format self = ip ++ "." ++ fp /\
    PyStr.len fp = 9%nat /\
    ((9 < PyStr.len s)%nat ->
       ip = PyStr.slice_until_last 9 s /\ fp = PyStr.slice_last 9 s /\ ip ++ fp = s) /\
    ((PyStr.len s <= 9)%nat ->
       ip = "0" /\ fp = PyStr.repeat "0" (9 - PyStr.len s) ++ s) /\
    (forall n : Z, nanocodas self = NInt n -> 0 <= n ->
       PyInt.all_digits ip = true /\ ip <> "" /\ PyInt.all_digits fp = true /\
       PyInt.digits_value 0 (ip ++ fp) = n).
Proof.
  intros s.
  destruct (CurrencyFacts.decimal_format_parts self)
    as (ip & fp & Hfmt & Hlen & Hlong & Hshort).
  fold s in Hlong, Hshort.
  exists ip, fp. split; [exact Hfmt|]. split; [exact Hlen|].
  split; [|split; [exact Hshort|]].
  - intros H. destruct (Hlong H) as [-> ->].
    repeat split. apply PyStrFacts.slices_rejoin.
  - intros n Hself Hn. subst s. rewrite Hself in Hlong, Hshort.
    cbn [nano_str] in Hlong, Hshort.
    exact (CurrencyFacts.decimal_format_digits n ip fp Hn Hlong Hshort).
Qed.

Lemma decimal_format_slices_witness :
  exists ip fp : string,
    decimal_format (MkCurrency 0 (NInt 5000000000)) = ip ++ "." ++ fp /\
    PyStr.len fp = 9%nat /\ PyInt.all_digits ip = true /\ PyInt.all_digits fp = true /\
    PyInt.digits_value 0 (ip ++ fp) = 5000000000.
Proof.
  destruct (decimal_format_slices (MkCurrency 0 (NInt 5000000000)))
    as (ip & fp & Hfmt & Hlen & _ & _ & Hdig).
  destruct (Hdig 5000000000 eq_refl ltac:(lia)) as (Hip & _ & Hfp & Hv).
  exists ip, fp. repeat split; assumption.
Defined.

(** ** C9: decimal_format read back *)

(** C9: for every [n >= 0], [Currency(Currency(n, NANO).decimal_format())]
    is constructed and holds [n] again. *)
Theorem decimal_format_round_trip (n : Z) (next : nat) :
  0 <= n ->
  exists a b : Currency,
    fromNano (VInt n) next = Ok (a, S next) /\
    fromWhole (VStr (decimal_format a)) (S next) = Ok (b, S (S next)) /\
    nanocodas b = NInt n.
Proof.
  intros Hn.
  exists (MkCurrency next (NInt n)), (MkCurrency (S next) (NInt n)).
  split; [reflexivity|]. split; [|reflexivity].
  unfold fromWhole, Currency_new, Currency_init.
  now rewrite (CurrencyFacts.from_string_decimal_format
                 (MkCurrency next (NInt n)) n eq_refl Hn).
Qed.

Lemma decimal_format_round_trip_witness :
  exists a b : Currency,
    fromNano (VInt 123) 0%nat = Ok (a, 1%nat) /\
    fromWhole (VStr (decimal_format a)) 1%nat = Ok (b, 2%nat) /\
    nanocodas b = NInt 123.
Proof. apply (decimal_format_round_trip 123 0). lia. Defined.

(** ** C10: floats shown with an exponent *)

(** C10: when [str] of a float has no period and holds the exponent mark
    [e] (as for 1e-07 and 1e+16), [Currency(f)] hands that text to [int],
    which raises [ValueError]: no instance is built, and the exception is
    neither an [Exception] raised by the class nor [CurrencyUnderflow]. *)
Theorem float_with_exponent_value_error (shown : string) (next : nat) :
  PyStr.contains "." shown = false -> PyStr.contains "e" shown = true ->
  Currency_init (VFloat shown) (Format WHOLE) = (n <- PyInt.int shown ;; Ok (NInt n)) /\
  fromWhole (VFloat shown) next = Raise (ValueError shown) /\
  (forall msg, fromWhole (VFloat shown) next <> Raise (Exception msg)) /\
  fromWhole (VFloat shown) next <> Raise CurrencyUnderflow.
Proof.
  intros Hdot He.
  assert (Hinit : Currency_init (VFloat shown) (Format WHOLE) =
                  (n <- PyInt.int shown ;; Ok (NInt n))).
  { apply (CurrencyFacts.from_string_no_period shown Hdot). }
  assert (E : fromWhole (VFloat shown) next = Raise (ValueError shown)).
  { unfold fromWhole, Currency_new. rewrite Hinit.
    now rewrite (PyIntFacts.int_refuses "e" shown). }
  split; [exact Hinit|]. split; [exact E|].
  rewrite E. split; [intros msg|]; discriminate.
Qed.

Lemma float_with_exponent_value_error_witness :
  fromWhole (VFloat "1e-07") 0%nat = Raise (ValueError "1e-07") /\
  fromWhole (VFloat "1e+16") 0%nat = Raise (ValueError "1e+16").
Proof.
  split.
  - apply (float_with_exponent_value_error "1e-07" 0); reflexivity.
  - apply (float_with_exponent_value_error "1e+16" 0); reflexivity.
Defined.

(** * Further properties of the code *)

(** ** Arithmetic on instances *)

(** X1: addition of two instances holding integers always returns, whatever
    the signs, and the new instance holds the sum; the stored sum does not
    depend on the order of the operands nor on how three operands are
    grouped. *)
Theorem add_sum_commutes_associates (a b c : Currency) (x y z : Z) (next : nat) :
  nanocodas a = NInt x -> nanocodas b = NInt y -> nanocodas c = NInt z ->
  Currency_add a (VCurrency b) next = Ok (MkCurrency next (NInt (x + y)), S next) /\
  Currency_add b (VCurrency a) next = Ok (MkCurrency next (NInt (x + y)), S next) /\
  (ab <- Currency_add a (VCurrency b) next ;;
   Currency_add (fst ab) (VCurrency c) (snd ab))
    = Ok (MkCurrency (S next) (NInt (x + y + z)), S (S next)) /\
  (bc <- Currency_add b (VCurrency c) next ;;
   Currency_add a (VCurrency (fst bc)) (snd bc))
    = Ok (MkCurrency (S next) (NInt (x + y + z)), S (S next)).
Proof.
  intros Ha Hb Hc. unfold Currency_add. rewrite Ha, Hb, Hc. cbn.
  replace (y + x) with (x + y) by lia.
  replace (x + (y + z)) with (x + y + z) by lia.
  repeat split.
Qed.

Lemma add_sum_commutes_associates_witness :
  Currency_add (MkCurrency 0 (NInt (-4))) (VCurrency (MkCurrency 1 (NInt 3))) 3%nat
    = Ok (MkCurrency 3 (NInt (-4 + 3)), 4%nat).
Proof.
  exact (proj1 (add_sum_commutes_associates
                  (MkCurrency 0 (NInt (-4))) (MkCurrency 1 (NInt 3)) (MkCurrency 2 (NInt 9))
                  (-4) 3 9 3 eq_refl eq_refl eq_refl)).
Defined.

(** X2: whenever a subtraction returns, the instance it returns holds a
    non-negative integer. *)
Theorem sub_result_nonnegative (a : Currency) (other : value) (next : nat)
        (r : Currency) (k : nat) :
  Currency_sub a other next = Ok (r, k) ->
  exists z : Z, nanocodas r = NInt z /\ 0 <= z.
Proof.
  unfold Currency_sub. destruct other; try discriminate.
  destruct (nanocodas a) as [x|], (nanocodas c) as [y|]; try discriminate.
  cbn. destruct (Z.geb_spec (x - y) 0); [|discriminate].
  intros E. injection E as <- _. exists (x - y). split; [reflexivity | lia].
Qed.

Lemma sub_result_nonnegative_witness :
  exists z : Z, nanocodas (MkCurrency 2 (NInt 4)) = NInt z /\ 0 <= z.
Proof.
  apply (sub_result_nonnegative (MkCurrency 0 (NInt 7)) (VCurrency (MkCurrency 1 (NInt 3)))
           2 (MkCurrency 2 (NInt 4)) 3).
  reflexivity.
Defined.

(** X3: subtraction and addition undo each other.  If [a - b] returns [c],
    then [c + b] holds what [a] holds; and if [a] holds a non-negative
    integer, [(a + b) - b] returns an instance holding it. *)
Theorem sub_add_inverse (a b : Currency) (next : nat) :
  (forall c k, Currency_sub a (VCurrency b) next = Ok (c, k) ->
     exists r k', Currency_add c (VCurrency b) k = Ok (r, k') /\
                  nanocodas r = nanocodas a) /\
  (forall x y, nanocodas a = NInt x -> nanocodas b = NInt y -> 0 <= x ->
     (s <- Currency_add a (VCurrency b) next ;;
      Currency_sub (fst s) (VCurrency b) (snd s))
       = Ok (MkCurrency (S next) (NInt x), S (S next))).
Proof.
  split.
  - intros c k. unfold Currency_sub, Currency_add.
    destruct (nanocodas a) as [x|], (nanocodas b) as [y|] eqn:Hb; try discriminate.
    cbn. destruct (Z.geb_spec (x - y) 0); [|discriminate].
    intros E. injection E as <- <-. cbn.
    eexists _, _. split; [reflexivity|]. cbn. f_equal. lia.
  - intros x y Ha Hb Hx. unfold Currency_sub, Currency_add.
    rewrite Ha, Hb. cbn.
    replace (x + y - y) with x by lia.
    destruct (Z.geb_spec x 0); [reflexivity | lia].
Qed.

Lemma sub_add_inverse_witness :
  (s <- Currency_add (MkCurrency 0 (NInt 5)) (VCurrency (MkCurrency 1 (NInt (-8)))) 2%nat ;;
   Currency_sub (fst s) (VCurrency (MkCurrency 1 (NInt (-8)))) (snd s))
    = Ok (MkCurrency 3 (NInt 5), 4%nat).
Proof.
  apply (proj2 (sub_add_inverse (MkCurrency 0 (NInt 5)) (MkCurrency 1 (NInt (-8))) 2)
           5 (-8) eq_refl eq_refl).
  lia.
Defined.

(** X4: multiplication by an int scales the stored count, and it distributes
    over addition: [(a + b) * k] holds what [a * k + b * k] holds. *)
Theorem mul_scalar_distributes (a b : Currency) (x y k : Z) (next : nat) :
  nanocodas a = NInt x -> nanocodas b = NInt y ->
  Currency_mul a (VInt k) next = Ok (MkCurrency next (NInt (x * k)), S next) /\
  exists r1 r2 k1 k2,
    (s <- Currency_add a (VCurrency b) next ;;
     Currency_mul (fst s) (VInt k) (snd s)) = Ok (r1, k1) /\
    (p <- Currency_mul a (VInt k) next ;;
     q <- Currency_mul b (VInt k) (snd p) ;;
     Currency_add (fst p) (VCurrency (fst q)) (snd q)) = Ok (r2, k2) /\
    nanocodas r1 = NInt ((x + y) * k) /\ nanocodas r2 = nanocodas r1.
Proof.
  intros Ha Hb. unfold Currency_mul, Currency_add. rewrite Ha, Hb. cbn.
  split; [reflexivity|].
  eexists _, _, _, _. split; [reflexivity|]. split; [reflexivity|].
  cbn. split; [reflexivity | f_equal; lia].
Qed.

Lemma mul_scalar_distributes_witness :
  Currency_mul (MkCurrency 0 (NInt 2000000000)) (VInt 3) 2%nat
    = Ok (MkCurrency 2 (NInt (2000000000 * 3)), 3%nat).
Proof.
  exact (proj1 (mul_scalar_distributes
                  (MkCurrency 0 (NInt 2000000000)) (MkCurrency 1 (NInt 1)) 2000000000 1 3 2
                  eq_refl eq_refl)).
Defined.

(** X5: multiplying two instances multiplies the raw counts.  For two
    amounts built from the whole numbers [m] and [n] the product holds
    [m * n * 10^18]: it is [Currency(m * n)] scaled once more by 10^9, and
    the two agree only when [m * n = 0]. *)
Theorem mul_currency_scales_twice (m n : Z) (next : nat) :
  exists a b p w,
    fromWhole (VInt m) next = Ok (a, S next) /\
    fromWhole (VInt n) (S next) = Ok (b, S (S next)) /\
    Currency_mul a (VCurrency b) (S (S next)) = Ok (p, S (S (S next))) /\
    fromWhole (VInt (m * n)) (S (S (S next))) = Ok (w, S (S (S (S next)))) /\
    nanocodas p = NInt (m * n * 10 ^ 18) /\
    nanocodas w = NInt (m * n * 10 ^ 9) /\
    (nanocodas p = nanocodas w <-> m * n = 0).
Proof.
  eexists _, _, _, _.
  split; [reflexivity|]. split; [reflexivity|].
  split; [reflexivity|]. split; [reflexivity|].
  cbn [nanocodas]. unfold nanocodas_from_int.
  change (10 ^ 18) with 1000000000000000000. change (10 ^ 9) with 1000000000.
  split; [f_equal; lia|]. split; [reflexivity|].
  split.
  - intros E. injection E as E. lia.
  - intros E. f_equal. nia.
Qed.

(** X6: an operation that returns gives a new object: it takes the next
    identity, and [==] between the result and an operand that existed
    before the call is false, also when both hold the same count (as in
    [a + Currency(0)]). *)
Theorem results_are_new_objects (a : Currency) (other : value) (next : nat)
        (r : Currency) (k : nat) :
  (ident a < next)%nat ->
  Currency_add a other next = Ok (r, k) \/
  Currency_sub a other next = Ok (r, k) \/
  Currency_mul a other next = Ok (r, k) ->
  ident r = next /\ k = S next /\ Currency_eq r a = false /\
  (forall o, other = VCurrency o -> (ident o < next)%nat -> Currency_eq r o = false).
Proof.
  intros Ha H.
  assert (Hr : ident r = next /\ k = S next).
  { unfold Currency_add, Currency_sub, Currency_mul in H.
    destruct H as [H | [H | H]]; destruct other; try discriminate;
      try (destruct (nanocodas a), (nanocodas c); try discriminate);
      try (destruct (nanocodas a); try discriminate);
      cbn in H;
      try (match type of H with context [?u >=? 0] => destruct (u >=? 0) end;
           try discriminate);
      cbn in H; injection H as <- <-; split; reflexivity. }
  destruct Hr as [Hi Hk]. repeat split; try assumption.
  - unfold Currency_eq. apply Nat.eqb_neq. lia.
  - intros o _ Ho. unfold Currency_eq. apply Nat.eqb_neq. lia.
Qed.

Lemma results_are_new_objects_witness :
  Currency_eq (MkCurrency 2 (NInt 5)) (MkCurrency 0 (NInt 5)) = false.
Proof.
  refine (proj1 (proj2 (proj2 (results_are_new_objects
            (MkCurrency 0 (NInt 5)) (VCurrency (MkCurrency 1 (NInt 0))) 2
            (MkCurrency 2 (NInt 5)) 3 _ _)))).
  - simpl. lia.
  - left. reflexivity.
Defined.

(** ** Constructor arguments *)



(** ** Instances holding None *)

(** X8: an instance that holds [None] (built from a string with several
    periods) makes every operation it takes part in raise the interpreter's
    [TypeError], on either side of [+], [-], [*] and as either bound of
    [random]; none of them returns and none raises [CurrencyUnderflow]. *)
Theorem none_instance_raises_type_error (a b : Currency) (next : nat) :
  nanocodas a = NNone \/ nanocodas b = NNone ->
  Currency_add a (VCurrency b) next = Raise TypeError /\
  Currency_sub a (VCurrency b) next = Raise TypeError /\
  Currency_mul a (VCurrency b) next = Raise TypeError /\
  (forall k, nanocodas a = NNone -> Currency_mul a (VInt k) next = Raise TypeError) /\
  Currency_random (VCurrency a) (VCurrency b) next = Return (Raise TypeError).
Proof.
  intros H. unfold Currency_add, Currency_sub, Currency_mul, Currency_random.
  destruct H as [H | H]; rewrite H; destruct a as [ia [x|]], b as [ib [y|]];
    cbn in *; try discriminate; repeat split; intros; try reflexivity;
    discriminate.
Qed.

Lemma none_instance_raises_type_error_witness :
  fromWhole (VStr "1.2.3") 0%nat = Ok (MkCurrency 0 NNone, 1%nat) /\
  Currency_add (MkCurrency 0 NNone) (VCurrency (MkCurrency 1 (NInt 1))) 2%nat
    = Raise TypeError.
Proof.
  split; [reflexivity|].
  apply (none_instance_raises_type_error (MkCurrency 0 NNone) (MkCurrency 1 (NInt 1)) 2).
  left. reflexivity.
Defined.

(** ** Currency.random *)

(** X9: both bounds can come out of [random]: for two distinct instances
    with [lower <= upper], the draws 0 and [upper - lower] are allowed and
    give results holding the lower and the upper count.  Every result is a
    new object holding a count between the bounds, and [==] between it and
    either bound is false, the bounds having been constructed before the
    call. *)
Theorem random_reaches_both_bounds (l u : Currency) (x y : Z) (next : nat) :
  nanocodas l = NInt x -> nanocodas u = NInt y -> x <= y ->
  Currency_eq l u = false ->
  (ident l < next)%nat -> (ident u < next)%nat ->
  may_return (Currency_random (VCurrency l) (VCurrency u) next)
             (Ok (MkCurrency (S next) (NInt x), S (S next))) /\
  may_return (Currency_random (VCurrency l) (VCurrency u) next)
             (Ok (MkCurrency (S next) (NInt y), S (S next))) /\
  (forall r, may_return (Currency_random (VCurrency l) (VCurrency u) next) r ->
     exists (c : Currency) (z : Z),
       r = Ok (c, S (S next)) /\ ident c = S next /\
       nanocodas c = NInt z /\ x <= z <= y /\
       Currency_eq c l = false /\ Currency_eq c u = false /\
       Currency_eq l c = false /\ Currency_eq u c = false).
Proof.
  intros Hl Hu Hxy Hne Hil Hiu.
  destruct l as [il nl], u as [iu nu]. simpl in Hl, Hu, Hil, Hiu. subst nl nu.
  assert (Hge : (y >=? x) = true) by (apply Z.geb_le; lia).
  assert (E : Currency_random (VCurrency (MkCurrency il (NInt x)))
                (VCurrency (MkCurrency iu (NInt y))) next
              = RandInt 0 (y - x) (fun delta =>
                  Return (Ok (MkCurrency (S next) (NInt (x + delta)), S (S next))))).
  { unfold Currency_random. cbn [nanocodas nano_ge nano_binop]. now rewrite Hge, Hne. }
  rewrite E.
  assert (Hdraw : forall d, 0 <= d <= y - x ->
            may_return
              (RandInt 0 (y - x) (fun delta =>
                 Return (Ok (MkCurrency (S next) (NInt (x + delta)), S (S next)))))
              (Ok (MkCurrency (S next) (NInt (x + d)), S (S next)))).
  { intros d Hd. apply mr_randint with (d := d); [exact Hd | apply mr_return]. }
  split; [|split].
  - pose proof (Hdraw 0 ltac:(lia)) as H. now replace (x + 0) with x in H by lia.
  - pose proof (Hdraw (y - x) ltac:(lia)) as H.
    now replace (x + (y - x)) with y in H by lia.
  - intros r Hr. inversion Hr as [|lo hi k d a Hd Hk]; subst.
    inversion Hk; subst.
    exists (MkCurrency (S next) (NInt (x + d))), (x + d).
    unfold Currency_eq. cbn [ident nanocodas].
    repeat split; try lia; apply Nat.eqb_neq; lia.
Qed.

Lemma random_reaches_both_bounds_witness :
  may_return
    (Currency_random (VCurrency (MkCurrency 0 (NInt 2))) (VCurrency (MkCurrency 1 (NInt 7))) 2%nat)
    (Ok (MkCurrency 3 (NInt 7), 4%nat)).
Proof.
  refine (proj1 (proj2 (random_reaches_both_bounds
            (MkCurrency 0 (NInt 2)) (MkCurrency 1 (NInt 7)) 2 7 2
            eq_refl eq_refl _ eq_refl _ _))); simpl; lia.
Defined.

(** ** More about digits, signs and periods *)

Module TextFacts.
Import PyStr PyStrFacts PyInt PyIntFacts.

Lemma digits_value_bound (s : string) :
  all_digits s = true -> 0 <= digits_value 0 s < 10 ^ Z.of_nat (len s).
Proof.
  induction s as [|c s IH]; intros H.
  - simpl. lia.
  - simpl in H. apply andb_prop in H. destruct H as [Hc Hs].
    specialize (IH Hs). pose proof (digit_val_range c Hc) as Hv.
    cbn [digits_value len String.length]. fold (len s).
    rewrite digits_value_shift, Nat2Z.inj_succ, Z.pow_succ_r by lia.
    nia.
Qed.

Lemma rstrip_cons (d : ascii) (t : string) :
  is_space d = false -> rstrip (String d t) = String d (rstrip t).
Proof. intros H. cbn [rstrip]. rewrite H. now destruct (rstrip t). Qed.

(** [int] on a minus sign followed by digits. *)
Lemma int_minus_digits (d : string) :
  all_digits d = true -> d <> "" -> int (String "-" d) = Ok (- digits_value 0 d).
Proof.
  intros Hd Hne. unfold int. cbn [lstrip]. change (is_space "-") with false. cbv iota.
  rewrite rstrip_cons by reflexivity. rewrite (rstrip_digits d Hd).
  unfold parse_signed. rewrite Ascii.eqb_refl.
  destruct d as [|c d]; [congruence|].
  simpl in Hd. apply andb_prop in Hd. destruct Hd as [Hc Hd].
  unfold parse_unsigned. rewrite Hc.
  now rewrite (parse_digits_all_digits _ d Hd).
Qed.

(** A character [int] cannot read, anywhere after a leading digit. *)
Lemma int_refuses_after_digit (c d : ascii) (t : string) :
  is_digit d = true ->
  is_digit c = false -> Ascii.eqb c "_" = false -> is_space c = false ->
  contains c t = true ->
  int (String d t) = Raise (ValueError (String d t)).
Proof.
  intros Hd Hc Hu Hsp Hin. unfold int. cbn [lstrip].
  rewrite (digit_not_space d Hd), rstrip_cons by now apply digit_not_space.
  unfold parse_signed. destruct (digit_not_sign d Hd) as [-> ->].
  unfold parse_unsigned. rewrite Hd.
  now rewrite (parse_digits_refuses c Hc Hu (len (rstrip t)) (rstrip t) _
                 (le_n _) (rstrip_keeps c t Hsp Hin)).
Qed.

(** *** How long the text of an integer is *)

Lemma len_digits_upper (fuel : nat) :
  forall (m : Z) (rest : string) (k : nat),
    0 <= m < 10 ^ Z.of_nat (S k) ->
    (len (digits fuel m rest) <= S k + len rest)%nat.
Proof.
  induction fuel as [|fuel IH]; intros m rest k Hm; cbn [digits]; [lia|].
  destruct (Z.ltb_spec m 10) as [Hlt | Hge].
  - cbn [len String.length]. fold (len rest). lia.
  - destruct k as [|k].
    + change (10 ^ Z.of_nat 1) with 10 in Hm. lia.
    + rewrite Nat2Z.inj_succ, Z.pow_succ_r in Hm by lia.
      specialize (IH (m / 10) (String (digit_char (m mod 10)) rest) k).
      cbn [len String.length] in IH. fold (len rest) in IH.
      assert (0 <= m / 10 < 10 ^ Z.of_nat (S k)).
      { split; [apply Z.div_pos; lia | apply Z.div_lt_upper_bound; lia]. }
      specialize (IH H). unfold len in *. lia.
Qed.

Lemma len_digits_lower (fuel : nat) :
  forall (m : Z) (rest : string) (k : nat),
    10 ^ Z.of_nat k <= m < 10 ^ Z.of_nat fuel ->
    (S k + len rest <= len (digits fuel m rest))%nat.
Proof.
  induction fuel as [|fuel IH]; intros m rest k Hm.
  - assert (0 < 10 ^ Z.of_nat k) by (apply Z.pow_pos_nonneg; lia).
    change (10 ^ Z.of_nat 0) with 1 in Hm. lia.
  - cbn [digits]. destruct (Z.ltb_spec m 10) as [Hlt | Hge].
    + destruct k as [|k].
      * cbn [len String.length]. fold (len rest). lia.
      * rewrite Nat2Z.inj_succ, Z.pow_succ_r in Hm by lia.
        assert (0 < 10 ^ Z.of_nat k) by (apply Z.pow_pos_nonneg; lia). lia.
    + destruct k as [|k].
      * pose proof (len_digits fuel (m / 10) (String (digit_char (m mod 10)) rest)) as H.
        cbn [len String.length] in H. unfold len in *. lia.
      * rewrite !Nat2Z.inj_succ, !Z.pow_succ_r in Hm by lia.
        specialize (IH (m / 10) (String (digit_char (m mod 10)) rest) k).
        cbn [len String.length] in IH. fold (len rest) in IH.
        assert (10 ^ Z.of_nat k <= m / 10 < 10 ^ Z.of_nat fuel).
        { split; [apply Z.div_le_lower_bound; lia | apply Z.div_lt_upper_bound; lia]. }
        specialize (IH H). unfold len in *. lia.
Qed.

(** [len(str(m)) <= k + 1] exactly when [m < 10^(k+1)]. *)
Lemma len_str_nonneg (m : Z) (k : nat) :
  0 <= m ->
  ((len (str_nonneg m) <= S k)%nat <-> m < 10 ^ Z.of_nat (S k)).
Proof.
  intros Hm. split.
  - intros Hlen. destruct (Z.lt_ge_cases m (10 ^ Z.of_nat (S k))) as [H | H]; [exact H|].
    pose proof (len_digits_lower (S (Z.to_nat (Z.log2 m))) m "" (S k)
                  (conj H (str_nonneg_fuel m Hm))) as Hlow.
    fold (str_nonneg m) in Hlow. lia.
  - intros H.
    pose proof (len_digits_upper (S (Z.to_nat (Z.log2 m))) m "" k (conj Hm H)) as Hup.
    fold (str_nonneg m) in Hup. cbn [len String.length] in Hup.
    unfold len in *. lia.
Qed.

(** *** Exactly one period *)

Lemma count_one_parts (sep : ascii) (s : string) :
  count sep s = 1%nat ->
  exists l r : string,
    s = l ++ String sep r /\ contains sep l = false /\ contains sep r = false.
Proof.
  induction s as [|c s IH]; simpl; [discriminate|].
  destruct (Ascii.eqb_spec c sep) as [-> | Hne].
  - intros H. exists "", s. repeat split.
    apply contains_count. lia.
  - intros H. destruct (IH H) as (l & r & -> & Hl & Hr).
    exists (String c l), r. repeat split; [|assumption].
    simpl. apply Ascii.eqb_neq in Hne. now rewrite Hne.
Qed.

End TextFacts.

(** ** The decimal format, read as a number *)

(** X10: for a non-negative count [n] the digits before the period denote
    [n div 10^9] and the nine digits after it denote [n mod 10^9]. *)
Theorem decimal_format_div_mod (self : Currency) (n : Z) :
  nanocodas self = NInt n -> 0 <= n ->
  exists ip fp : string,
    decimal_format self = ip ++ "." ++ fp /\
    PyStr.len fp = 9%nat /\
    PyInt.all_digits ip = true /\ PyInt.all_digits fp = true /\
    PyInt.digits_value 0 ip = n / 10 ^ 9 /\
    PyInt.digits_value 0 fp = n mod 10 ^ 9.
Proof.
  intros Hself Hn.
  destruct (CurrencyFacts.decimal_format_parts self) as (ip & fp & Hfmt & Hlen & Hlong & Hshort).
  rewrite Hself in Hlong, Hshort. cbn [nano_str] in Hlong, Hshort.
  destruct (CurrencyFacts.decimal_format_digits n ip fp Hn Hlong Hshort)
    as (Hip & _ & Hfp & Hv).
  exists ip, fp. repeat (split; [assumption|]).
  rewrite PyIntFacts.digits_value_app, PyIntFacts.digits_value_shift, Hlen in Hv.
  pose proof (TextFacts.digits_value_bound fp Hfp) as Hb. rewrite Hlen in Hb.
  change (Z.of_nat 9) with 9 in *.
  symmetry in Hv. rewrite Z.mul_comm in Hv.
  split; [apply (Z.div_unique_pos n (10 ^ 9) _ (PyInt.digits_value 0 fp))
         | apply (Z.mod_unique_pos n (10 ^ 9) (PyInt.digits_value 0 ip))];
    assumption.
Qed.

Lemma decimal_format_div_mod_witness :
  exists ip fp : string,
    decimal_format (MkCurrency 0 (NInt 12345678912)) = ip ++ "." ++ fp /\
    PyInt.digits_value 0 ip = 12345678912 / 10 ^ 9 /\
    PyInt.digits_value 0 fp = 12345678912 mod 10 ^ 9.
Proof.
  destruct (decimal_format_div_mod (MkCurrency 0 (NInt 12345678912)) 12345678912
              eq_refl ltac:(lia)) as (ip & fp & H1 & _ & _ & _ & H2 & H3).
  exists ip, fp. repeat split; assumption.
Defined.

(** X11: two instances holding different non-negative counts never have the
    same decimal format. *)
Theorem decimal_format_injective (a b : Currency) (x y : Z) :
  nanocodas a = NInt x -> nanocodas b = NInt y -> 0 <= x -> 0 <= y ->
  decimal_format a = decimal_format b -> x = y.
Proof.
  intros Ha Hb Hx Hy E.
  pose proof (CurrencyFacts.from_string_decimal_format a x Ha Hx) as H1.
  pose proof (CurrencyFacts.from_string_decimal_format b y Hb Hy) as H2.
  rewrite E, H2 in H1. now injection H1.
Qed.

Lemma decimal_format_injective_witness : 1500000000 = 1500000000.
Proof.
  apply (decimal_format_injective (MkCurrency 0 (NInt 1500000000))
           (MkCurrency 1 (NInt 1500000000)) 1500000000 1500000000);
    (reflexivity || lia).
Defined.

(** X12: for a negative count the decimal format is read back only when
    the count is at most -10^8.  Between -10^8 and 0 the minus sign lands
    after the padding zeros ("0.0000000-5") and the constructor raises
    [ValueError] on that text; from -10^8 down, the text ("-5.000000000")
    gives the count again. *)
Theorem negative_decimal_format_read_back (n : Z) (next : nat) :
  n < 0 ->
  let a := MkCurrency next (NInt n) in
  (- 10 ^ 8 < n ->
   fromWhole (VStr (decimal_format a)) (S next) =
     Raise (ValueError ("0" ++ PyStr.repeat "0" (9 - PyStr.len (PyInt.str n)) ++ PyInt.str n))) /\
  (n <= - 10 ^ 8 ->
   fromWhole (VStr (decimal_format a)) (S next) = Ok (MkCurrency (S next) (NInt n), S (S next))).
Proof.
  intros Hn a.
  assert (Hstr : PyInt.str n = String "-" (PyInt.str_nonneg (- n))).
  { unfold PyInt.str. destruct (Z.ltb_spec n 0); [reflexivity | lia]. }
  pose proof (PyIntFacts.str_nonneg_all_digits (- n) ltac:(lia)) as Hd.
  pose proof (PyIntFacts.str_nonneg_value (- n) ltac:(lia)) as Hv.
  pose proof (TextFacts.len_str_nonneg (- n) 7 ltac:(lia)) as Hlen.
  change (10 ^ Z.of_nat 8) with (10 ^ 8) in Hlen.
  set (d := PyInt.str_nonneg (- n)) in *.
  destruct (CurrencyFacts.decimal_format_parts a) as (ip & fp & Hfmt & Hfp & Hlong & Hshort).
  subst a. cbn [nanocodas nano_str] in Hlong, Hshort. rewrite Hstr in Hlong, Hshort.
  cbn [PyStr.len String.length] in Hlong, Hshort. fold (PyStr.len d) in Hlong, Hshort.
  unfold fromWhole, Currency_new, Currency_init. rewrite Hfmt.
  split; intros Hm.
  - assert (Hl : (PyStr.len d <= 8)%nat) by (apply Hlen; lia).
    destruct (Hshort ltac:(lia)) as [-> ->].
    rewrite CurrencyFacts.from_string_one_period; [| reflexivity |].
    + rewrite Hfp. change (9 <=? 9)%nat with true. change (9 - 9)%nat with 0%nat.
      cbn [PyStr.repeat]. cbv iota.
      rewrite PyStrFacts.app_empty_r, Hstr.
      cbn [PyStr.len String.length]. fold (PyStr.len d).
      change ("0" ++ PyStr.repeat "0" (9 - S (PyStr.len d)) ++ String "-" d)
        with (String "0" (PyStr.repeat "0" (9 - S (PyStr.len d)) ++ String "-" d)).
      rewrite (TextFacts.int_refuses_after_digit "-" "0"); try reflexivity.
      rewrite PyStrFacts.contains_app. simpl. apply orb_true_r.
    + rewrite PyStrFacts.contains_app. simpl.
      rewrite (PyIntFacts.all_digits_no_dot d Hd).
      rewrite (PyIntFacts.all_digits_no_dot _ (PyIntFacts.all_digits_zeros _)).
      reflexivity.
  - assert (Hl : (8 < PyStr.len d)%nat).
    { destruct (Nat.le_gt_cases (PyStr.len d) 8) as [H | H]; [|exact H].
      apply Hlen in H. lia. }
    destruct (Hlong ltac:(lia)) as [Hip Hf].
    unfold PyStr.slice_until_last, PyStr.slice_last in Hip, Hf.
    cbn [PyStr.len String.length] in Hip, Hf. fold (PyStr.len d) in Hip, Hf.
    replace (S (PyStr.len d) - 9)%nat with (S (PyStr.len d - 9)) in Hip, Hf by lia.
    cbn [PyStr.take PyStr.drop] in Hip, Hf. subst ip fp.
    rewrite CurrencyFacts.from_string_one_period.
    + rewrite Hfp. change (9 <=? 9)%nat with true. change (9 - 9)%nat with 0%nat.
      cbn [PyStr.repeat]. cbv iota.
      rewrite PyStrFacts.app_empty_r.
      change (String "-" (PyStr.take (PyStr.len d - 9) d) ++ PyStr.drop (PyStr.len d - 9) d)
        with (String "-" (PyStr.take (PyStr.len d - 9) d ++ PyStr.drop (PyStr.len d - 9) d)).
      rewrite PyStrFacts.take_drop, TextFacts.int_minus_digits.
      * rewrite Hv, Z.opp_involutive. reflexivity.
      * exact Hd.
      * intros E. rewrite E in Hl. simpl in Hl. lia.
    + simpl. apply PyIntFacts.all_digits_no_dot. now apply PyIntFacts.all_digits_take.
    + apply PyIntFacts.all_digits_no_dot. now apply PyIntFacts.all_digits_drop.
Qed.

Lemma negative_decimal_format_read_back_witness :
  fromWhole (VStr (decimal_format (MkCurrency 0 (NInt (-5))))) 1%nat =
    Raise (ValueError ("0" ++ PyStr.repeat "0" (9 - PyStr.len (PyInt.str (-5))) ++ PyInt.str (-5))).
Proof.
  apply (negative_decimal_format_read_back (-5) 0); lia.
Defined.

(** ** Signed and float texts *)

Module SignedTextFacts.
Import PyStr PyStrFacts PyInt PyIntFacts.

Lemma digits_value_decimal (L R : string) :
  (len R <= 9)%nat ->
  digits_value 0 (L ++ R ++ repeat "0" (9 - len R)) =
    digits_value 0 L * 10 ^ 9 + digits_value 0 R * 10 ^ Z.of_nat (9 - len R).
Proof.
  intros Hlen.
  rewrite digits_value_app, digits_value_shift, len_app, len_repeat.
  replace (len R + (9 - len R))%nat with 9%nat by lia.
  now rewrite digits_value_app, digits_value_zeros.
Qed.

Lemma padded_not_empty (L R : string) :
  (len R <= 9)%nat -> L ++ R ++ repeat "0" (9 - len R) <> "".
Proof.
  intros Hlen E. apply (f_equal len) in E.
  rewrite !len_app, len_repeat in E. change (len "") with 0%nat in E. lia.
Qed.

Lemma from_string_digits (L R : string) :
  all_digits L = true -> all_digits R = true -> (len R <= 9)%nat ->
  nanocodas_from_string (L ++ "." ++ R) =
    Ok (NInt (digits_value 0 L * 10 ^ 9 + digits_value 0 R * 10 ^ Z.of_nat (9 - len R))).
Proof.
  intros HL HR Hlen.
  rewrite CurrencyFacts.from_string_one_period by now apply all_digits_no_dot.
  destruct (Nat.leb_spec (len R) 9); [|lia].
  rewrite int_all_digits.
  - now rewrite digits_value_decimal.
  - now rewrite !all_digits_app, HL, HR, all_digits_zeros.
  - now apply padded_not_empty.
Qed.

Lemma from_string_minus_digits (D R : string) :
  all_digits D = true -> all_digits R = true -> (len R <= 9)%nat ->
  nanocodas_from_string (String "-" D ++ "." ++ R) =
    Ok (NInt (- (digits_value 0 D * 10 ^ 9
                 + digits_value 0 R * 10 ^ Z.of_nat (9 - len R)))).
Proof.
  intros HD HR Hlen.
  rewrite CurrencyFacts.from_string_one_period.
  - destruct (Nat.leb_spec (len R) 9); [|lia].
    change (String "-" D ++ R ++ repeat "0" (9 - len R))
      with (String "-" (D ++ R ++ repeat "0" (9 - len R))).
    rewrite TextFacts.int_minus_digits.
    + now rewrite digits_value_decimal.
    + now rewrite !all_digits_app, HD, HR, all_digits_zeros.
    + now apply padded_not_empty.
  - simpl. now apply all_digits_no_dot.
  - now apply all_digits_no_dot.
Qed.

End SignedTextFacts.

(** X13: a decimal string with a leading minus sign, ["-D.R"] with digits
    [D] and [R] and [len(R) <= 9], constructs the negated amount: the sign
    applies to the whole and to the fractional part. *)
Theorem whole_string_negative (D R : string) (next : nat) :
  PyInt.all_digits D = true -> PyInt.all_digits R = true -> (PyStr.len R <= 9)%nat ->
  fromWhole (VStr ("-" ++ D ++ "." ++ R)) next =
    Ok (MkCurrency next
          (NInt (- (PyInt.digits_value 0 D * 10 ^ 9
                    + PyInt.digits_value 0 R * 10 ^ Z.of_nat (9 - PyStr.len R)))),
        S next).
Proof.
  intros HD HR Hlen. unfold fromWhole, Currency_new, Currency_init.
  change ("-" ++ D ++ "." ++ R) with (String "-" D ++ "." ++ R).
  now rewrite (SignedTextFacts.from_string_minus_digits D R HD HR Hlen).
Qed.

Lemma whole_string_negative_witness :
  fromWhole (VStr ("-" ++ "1" ++ "." ++ "5")) 0%nat =
    Ok (MkCurrency 0 (NInt (-1500000000)), 1%nat).
Proof.
  apply (whole_string_negative "1" "5" 0); [reflexivity | reflexivity | simpl; lia].
Defined.

(** X14: a float whose text is that of an integer [n] followed by [.0]
    (as [str] shows 5.0 or -12.0) constructs the same amount as the int
    [n]. *)
Theorem integral_float_as_int (n : Z) (next : nat) :
  fromWhole (VFloat (PyInt.str n ++ ".0")) next = fromWhole (VInt n) next.
Proof.
  unfold fromWhole, Currency_new.
  cbn [Currency_init]. unfold nanocodas_from_int.
  destruct (Z.lt_ge_cases n 0) as [Hneg | Hpos].
  - assert (Hstr : PyInt.str n = String "-" (PyInt.str_nonneg (- n))).
    { unfold PyInt.str. destruct (Z.ltb_spec n 0); [reflexivity | lia]. }
    rewrite Hstr.
    change (String "-" (PyInt.str_nonneg (- n)) ++ ".0")
      with (String "-" (PyInt.str_nonneg (- n)) ++ "." ++ "0").
    rewrite SignedTextFacts.from_string_minus_digits;
      [| apply PyIntFacts.str_nonneg_all_digits; lia | reflexivity | simpl; lia].
    rewrite PyIntFacts.str_nonneg_value by lia.
    change (PyInt.digits_value 0 "0") with 0. change (10 ^ 9) with 1000000000.
    cbn [bind].
    match goal with
    | |- Ok (MkCurrency _ (NInt ?u), _) = Ok (MkCurrency _ (NInt ?v), _) =>
        replace u with v by lia
    end.
    reflexivity.
  - rewrite (PyIntFacts.str_of_nonneg n Hpos).
    change (PyInt.str_nonneg n ++ ".0") with (PyInt.str_nonneg n ++ "." ++ "0").
    rewrite SignedTextFacts.from_string_digits;
      [| now apply PyIntFacts.str_nonneg_all_digits | reflexivity | simpl; lia].
    rewrite PyIntFacts.str_nonneg_value by lia.
    change (PyInt.digits_value 0 "0") with 0. change (10 ^ 9) with 1000000000.
    cbn [bind].
    match goal with
    | |- Ok (MkCurrency _ (NInt ?u), _) = Ok (MkCurrency _ (NInt ?v), _) =>
        replace u with v by lia
    end.
    reflexivity.
Qed.

(** X15: the string constructor raises the class's format exception
    exactly for a text with one period and more than nine characters after
    it, and the message then quotes the text. *)
Theorem format_exception_iff (s : string) (next : nat) :
  ((exists msg, fromWhole (VStr s) next = Raise (Exception msg)) <->
   (exists l r, s = l ++ "." ++ r /\ PyStr.contains "." l = false /\
                PyStr.contains "." r = false /\ (9 < PyStr.len r)%nat)) /\
  (forall msg, fromWhole (VStr s) next = Raise (Exception msg) ->
               msg = "invalid coda currency format: " ++ s).
Proof.
  assert (Hcases : (PyStr.count "." s = 0 \/ PyStr.count "." s = 1
                    \/ 2 <= PyStr.count "." s)%nat) by lia.
  unfold fromWhole, Currency_new, Currency_init.
  destruct Hcases as [H0 | [H1 | H2]].
  - apply PyStrFacts.contains_count in H0.
    rewrite (CurrencyFacts.from_string_no_period s H0).
    unfold PyInt.int. destruct (PyInt.parse_signed _); cbn.
    + split; [split|]; try discriminate.
      * intros (msg & E). discriminate.
      * intros (l & r & -> & _ & _ & _).
        rewrite PyStrFacts.contains_app in H0. simpl in H0.
        rewrite orb_true_r in H0. discriminate.
    + split; [split|]; try discriminate.
      * intros (msg & E). discriminate.
      * intros (l & r & -> & _ & _ & _).
        rewrite PyStrFacts.contains_app in H0. simpl in H0.
        rewrite orb_true_r in H0. discriminate.
  - destruct (TextFacts.count_one_parts "." s H1) as (l & r & -> & Hl & Hr).
    change (l ++ String "." r) with (l ++ "." ++ r).
    rewrite (CurrencyFacts.from_string_one_period l r Hl Hr).
    destruct (Nat.leb_spec (PyStr.len r) 9) as [Hle | Hgt].
    + assert (Hno : forall msg,
                (a <- (n <- PyInt.int (l ++ r ++ PyStr.repeat "0" (9 - PyStr.len r)) ;;
                       Ok (NInt n)) ;;
                 Ok (MkCurrency next a, S next)) <> Raise (Exception msg)).
      { intros msg. unfold PyInt.int. destruct (PyInt.parse_signed _); discriminate. }
      split; [split|].
      * intros (msg & E). now destruct (Hno msg).
      * intros (l' & r' & E & Hl' & Hr' & Hlen).
        assert (Hs : PyStr.split "." (l ++ String "." r) = [l'; r']).
        { change (l ++ "." ++ r) with (l ++ String "." r) in E. rewrite E.
          now apply PyStrFacts.split_one. }
        rewrite (PyStrFacts.split_one "." l r Hl Hr) in Hs.
        injection Hs as <- <-. lia.
      * intros msg E. now destruct (Hno msg).
    + cbn. split; [split|].
      * intros _. now exists l, r.
      * intros _. now eexists.
      * intros msg E. now injection E.
  - rewrite (CurrencyFacts.from_string_many_periods s H2). cbn.
    split; [split|]; try discriminate.
    + intros (msg & E). discriminate.
    + intros (l & r & -> & Hl & Hr & _).
      change (l ++ "." ++ r) with (l ++ String "." r) in H2.
      rewrite PyStrFacts.count_app in H2. simpl in H2.
      apply PyStrFacts.contains_count in Hl, Hr. lia.
Qed.

Lemma format_exception_iff_witness :
  "invalid coda currency format: 1.0123456789" =
    "invalid coda currency format: " ++ "1.0123456789".
Proof.
  apply (proj2 (format_exception_iff "1.0123456789" 0)). reflexivity.
Defined.

(** ** The query text *)

Module PyWordsFacts.
Import PyWords.

Lemma split_words (s : string) : Forall is_word (split s).
Proof.
  induction s as [|c s IH]; cbn [split]; [constructor|].
  destruct (is_whitespace c) eqn:Hc; [exact IH|].
  assert (Hone : is_word (String c "")).
  { split; [discriminate | simpl; now rewrite Hc]. }
  destruct s as [|d s]; [constructor; [exact Hone | constructor]|].
  destruct (is_whitespace d) eqn:Hd; [constructor; [exact Hone | exact IH]|].
  destruct (split (String d s)) as [|w ws]; [constructor; [exact Hone | constructor]|].
  inversion IH as [|? ? [Hne Hw] Hws]; subst.
  constructor; [|exact Hws].
  split; [discriminate | simpl; now rewrite Hc].
Qed.

Lemma join_cons (sep w : string) (ws : list string) :
  ws <> [] -> join sep (w :: ws) = w ++ sep ++ join sep ws.
Proof. destruct ws; [congruence | reflexivity]. Qed.

Lemma split_word_then_blank (w t : string) (b : ascii) :
  is_word w -> is_whitespace b = true ->
  split (w ++ String b t) = w :: split t.
Proof.
  intros [Hne Hw] Hb. induction w as [|c w IH]; [congruence|].
  simpl in Hw. apply orb_false_elim in Hw. destruct Hw as [Hc Hw].
  cbn [append split]. rewrite Hc.
  destruct w as [|d w].
  - cbn [append]. rewrite Hb. cbn [split]. now rewrite Hb.
  - simpl in Hw. apply orb_false_elim in Hw. destruct Hw as [Hd Hw'].
    cbn [append]. rewrite Hd.
    change (String d (w ++ String b t)) with (String d w ++ String b t).
    rewrite IH; [reflexivity | discriminate | simpl; now rewrite Hd, Hw'].
Qed.

Lemma split_one_word (w : string) : is_word w -> split w = [w].
Proof.
  intros [Hne Hw]. induction w as [|c w IH]; [congruence|].
  simpl in Hw. apply orb_false_elim in Hw. destruct Hw as [Hc Hw].
  cbn [split]. rewrite Hc.
  destruct w as [|d w]; [reflexivity|].
  pose proof Hw as Hw'. simpl in Hw'. apply orb_false_elim in Hw'.
  destruct Hw' as [Hd _]. rewrite Hd.
  rewrite IH; [reflexivity | discriminate | exact Hw].
Qed.

(** Splitting what [join] built from words gives the words back. *)
Lemma split_join (ws : list string) :
  Forall is_word ws -> split (join " " ws) = ws.
Proof.
  induction ws as [|w ws IH]; intros H; [reflexivity|].
  inversion H as [|? ? Hw Hws]; subst.
  destruct ws as [|w2 ws]; [now apply split_one_word|].
  rewrite join_cons by discriminate.
  change (w ++ " " ++ join " " (w2 :: ws)) with (w ++ String " " (join " " (w2 :: ws))).
  rewrite split_word_then_blank by (assumption || reflexivity).
  now rewrite IH.
Qed.

Lemma without_whitespace_app (s t : string) :
  without_whitespace (s ++ t) = without_whitespace s ++ without_whitespace t.
Proof.
  induction s as [|c s IH]; simpl; [reflexivity|].
  destruct (is_whitespace c); simpl; now rewrite IH.
Qed.

Lemma without_whitespace_word (w : string) :
  has_whitespace w = false -> without_whitespace w = w.
Proof.
  induction w as [|c w IH]; simpl; [reflexivity|].
  intros H. apply orb_false_elim in H. destruct H as [Hc Hw].
  now rewrite Hc, (IH Hw).
Qed.

Lemma without_whitespace_join (ws : list string) :
  Forall is_word ws ->
  without_whitespace (join " " ws) = join "" ws.
Proof.
  induction ws as [|w ws IH]; intros H; [reflexivity|].
  inversion H as [|? ? [_ Hw] Hws]; subst.
  destruct ws as [|w2 ws]; [now apply without_whitespace_word|].
  rewrite !join_cons by discriminate.
  rewrite without_whitespace_app, (without_whitespace_word w Hw).
  change (" " ++ join " " (w2 :: ws)) with (String " " (join " " (w2 :: ws))).
  cbn [without_whitespace]. change (is_whitespace " ") with true. cbv iota.
  now rewrite (IH Hws).
Qed.

Lemma without_whitespace_split (s : string) :
  without_whitespace s = join "" (split s).
Proof.
  induction s as [|c s IH]; cbn [split without_whitespace]; [reflexivity|].
  destruct (is_whitespace c) eqn:Hc; [exact IH|].
  rewrite IH.
  destruct s as [|d s]; [reflexivity|].
  destruct (is_whitespace d) eqn:Hd.
  - destruct (split (String d s)) as [|w ws]; reflexivity.
  - destruct (split (String d s)) as [|w [|w2 ws]]; reflexivity.
Qed.

Lemma join_words_empty (sep : string) (ws : list string) :
  Forall is_word ws -> join sep ws = "" -> ws = [].
Proof.
  intros H E. destruct ws as [|w ws]; [reflexivity|].
  inversion H as [|? ? [Hne _] _]; subst.
  destruct w as [|c w]; [congruence|].
  destruct ws; discriminate.
Qed.

Lemma starts_word (w t : string) :
  is_word w -> starts_with_whitespace (w ++ t) = false.
Proof.
  intros [Hne Hw]. destruct w as [|c w]; [congruence|].
  simpl in *. now apply orb_false_elim in Hw.
Qed.

Lemma ends_word (w : string) :
  has_whitespace w = false -> ends_with_whitespace w = false.
Proof.
  induction w as [|c w IH]; [reflexivity|].
  intros H. simpl in H. apply orb_false_elim in H. destruct H as [Hc Hw].
  cbn [ends_with_whitespace]. destruct w; [exact Hc | now apply IH].
Qed.

Lemma ends_app (s t : string) :
  t <> "" -> ends_with_whitespace (s ++ t) = ends_with_whitespace t.
Proof.
  intros Ht. induction s as [|c s IH]; [reflexivity|].
  cbn [append ends_with_whitespace].
  destruct (s ++ t) eqn:E; [|exact IH].
  destruct s; simpl in E; [congruence | discriminate].
Qed.

Lemma adjacent_word_blank (w t : string) (b : ascii) :
  is_word w -> starts_with_whitespace t = false ->
  adjacent_whitespace (w ++ String b t) = adjacent_whitespace t.
Proof.
  intros [Hne Hw] Ht. induction w as [|c w IH]; [congruence|].
  simpl in Hw. apply orb_false_elim in Hw. destruct Hw as [Hc Hw].
  destruct w as [|d w].
  - cbn [append adjacent_whitespace]. rewrite Hc. cbn [andb orb].
    destruct t as [|e t]; [reflexivity|].
    simpl in Ht. rewrite Ht, andb_false_r. reflexivity.
  - cbn [append adjacent_whitespace]. rewrite Hc. cbn [andb orb].
    apply IH; [discriminate | exact Hw].
Qed.

Lemma contains_blank_word (c : ascii) (w : string) :
  is_whitespace c = true -> has_whitespace w = false -> PyStr.contains c w = false.
Proof.
  intros Hc. induction w as [|d w IH]; [reflexivity|].
  intros H. simpl in H. apply orb_false_elim in H. destruct H as [Hd Hw].
  cbn [PyStr.contains]. rewrite (IH Hw), orb_false_r.
  apply Ascii.eqb_neq. intros ->. congruence.
Qed.

(** What [join] builds from words, with single spaces between them. *)
Lemma join_words_tidy (ws : list string) :
  Forall is_word ws ->
  starts_with_whitespace (join " " ws) = false /\
  ends_with_whitespace (join " " ws) = false /\
  adjacent_whitespace (join " " ws) = false /\
  (forall c, is_whitespace c = true -> c <> " "%char ->
             PyStr.contains c (join " " ws) = false).
Proof.
  induction ws as [|w ws IH]; intros H.
  - repeat split.
  - inversion H as [|? ? Hw Hws]; subst.
    destruct (IH Hws) as (Hs & He & Ha & Hc).
    destruct ws as [|w2 ws].
    + cbn [join]. destruct Hw as [Hne Hno]. repeat split.
      * destruct w as [|c w]; [congruence|].
        simpl in Hno. now apply orb_false_elim in Hno.
      * now apply ends_word.
      * clear - Hno. induction w as [|c w IHw]; [reflexivity|].
        simpl in Hno. apply orb_false_elim in Hno. destruct Hno as [Hc Hw].
        cbn [adjacent_whitespace]. destruct w as [|d w]; [reflexivity|].
        rewrite Hc. cbn [andb orb]. now apply IHw.
      * intros c Hcw _. now apply contains_blank_word.
    + rewrite join_cons by discriminate.
      change (w ++ " " ++ join " " (w2 :: ws))
        with (w ++ String " " (join " " (w2 :: ws))).
      assert (Hj : join " " (w2 :: ws) <> "").
      { intros E. apply (join_words_empty " " _ Hws) in E. discriminate. }
      repeat split.
      * now apply starts_word.
      * rewrite ends_app by discriminate.
        cbn [ends_with_whitespace].
        destruct (join " " (w2 :: ws)); [congruence | exact He].
      * now rewrite adjacent_word_blank.
      * intros c Hcw Hsp. rewrite PyStrFacts.contains_app.
        destruct Hw as [_ Hno]. rewrite (contains_blank_word c w Hcw Hno).
        cbn [PyStr.contains orb].
        rewrite (Hc c Hcw Hsp), orb_false_r.
        apply Ascii.eqb_neq. congruence.
Qed.

End PyWordsFacts.

(** X16: collapsing the blanks of a query keeps its words and every
    character that is no blank, in order; doing it twice changes nothing
    more; the result is empty exactly when the query holds only blanks. *)
Theorem strip_query_keeps_text (query : string) :
  PyWords.split (strip_query query) = PyWords.split query /\
  PyWords.without_whitespace (strip_query query) = PyWords.without_whitespace query /\
  strip_query (strip_query query) = strip_query query /\
  (strip_query query = "" <-> PyWords.without_whitespace query = "").
Proof.
  pose proof (PyWordsFacts.split_words query) as Hw.
  assert (Hsplit : PyWords.split (strip_query query) = PyWords.split query).
  { unfold strip_query. now apply PyWordsFacts.split_join. }
  assert (Hkeep : PyWords.without_whitespace (strip_query query)
                  = PyWords.without_whitespace query).
  { unfold strip_query.
    now rewrite PyWordsFacts.without_whitespace_join, PyWordsFacts.without_whitespace_split. }
  split; [exact Hsplit|]. split; [exact Hkeep|]. split.
  - unfold strip_query at 1. now rewrite Hsplit.
  - split.
    + intros E. now rewrite <- Hkeep, E.
    + intros E. rewrite PyWordsFacts.without_whitespace_split in E.
      unfold strip_query.
      now rewrite (PyWordsFacts.join_words_empty "" _ Hw E).
Qed.

(** X17: the collapsed query never starts or ends with a blank, never has
    two blanks in a row, and its only blank character is the space: tabs
    and line ends of the query are gone. *)
Theorem strip_query_tidy (query : string) :
  PyWords.starts_with_whitespace (strip_query query) = false /\
  PyWords.ends_with_whitespace (strip_query query) = false /\
  PyWords.adjacent_whitespace (strip_query query) = false /\
  (forall c, PyWords.is_whitespace c = true -> c <> " "%char ->
             PyStr.contains c (strip_query query) = false).
Proof.
  unfold strip_query.
  apply PyWordsFacts.join_words_tidy, PyWordsFacts.split_words.
Qed.

Lemma strip_query_tidy_witness :
  strip_query (String "009" "query  {" ++ String "010" " version }" ++ String "010" "")
    = "query { version }" /\
  PyStr.contains "010"
    (strip_query (String "009" "query  {" ++ String "010" " version }" ++ String "010" ""))
    = false.
Proof.
  split; [reflexivity|].
  apply (proj2 (proj2 (proj2 (strip_query_tidy
           (String "009" "query  {" ++ String "010" " version }" ++ String "010" "")))));
    [reflexivity | discriminate].
Defined.

(** ** Whole amounts *)

(** X18: on amounts built from ints the operations follow the ints:
    [Currency(m) + Currency(n)] holds what [Currency(m + n)] holds,
    [Currency(m) * k] what [Currency(m * k)] holds, and
    [Currency(m) - Currency(n)] returns an instance holding what
    [Currency(m - n)] holds when [n <= m] and raises [CurrencyUnderflow]
    when [m < n]. *)
Theorem whole_amounts_follow_ints (m n k : Z) (ia ib next : nat) :
  let a := MkCurrency ia (NInt (nanocodas_from_int m)) in
  let b := MkCurrency ib (NInt (nanocodas_from_int n)) in
  fromWhole (VInt m) ia = Ok (a, S ia) /\
  fromWhole (VInt n) ib = Ok (b, S ib) /\
  Currency_add a (VCurrency b) next
    = Ok (MkCurrency next (NInt (nanocodas_from_int (m + n))), S next) /\
  Currency_mul a (VInt k) next
    = Ok (MkCurrency next (NInt (nanocodas_from_int (m * k))), S next) /\
  (n <= m ->
   Currency_sub a (VCurrency b) next
     = Ok (MkCurrency next (NInt (nanocodas_from_int (m - n))), S next)) /\
  (m < n -> Currency_sub a (VCurrency b) next = Raise CurrencyUnderflow).
Proof.
  intros a b. subst a b.
  assert (Hcount : forall (i j : nat) (u v : Z),
            u = v -> Ok (MkCurrency i (NInt u), j) = Ok (MkCurrency i (NInt v), j)).
  { intros i j u v ->. reflexivity. }
  unfold Currency_add, Currency_mul, Currency_sub, nanocodas_from_int. cbn.
  split; [reflexivity|]. split; [reflexivity|].
  split; [apply Hcount; lia|].
  split; [apply Hcount; lia|].
  split; intros H.
  - destruct (Z.geb_spec (m * 1000000000 - n * 1000000000) 0); [|lia].
    apply Hcount. lia.
  - destruct (Z.geb_spec (m * 1000000000 - n * 1000000000) 0); [lia | reflexivity].
Qed.

Lemma whole_amounts_follow_ints_witness :
  Currency_sub (MkCurrency 0 (NInt (nanocodas_from_int 1)))
    (VCurrency (MkCurrency 1 (NInt (nanocodas_from_int 2)))) 2%nat
    = Raise CurrencyUnderflow.
Proof.
  apply (proj2 (proj2 (proj2 (proj2 (proj2
           (whole_amounts_follow_ints 1 2 0 0 1 2)))))).
  lia.
Defined.
